(** * Paperly POC: health probes, status roll-up and demo report

    A shallow embedding of [paper_system_poc.py] (class [PaperlySystemPOC]).

    The Python methods talk to a database, a cache, a search cluster, a
    graph store, the host sampler, the clock, the logger and the file
    system.  All of these are external: their answers are read from an
    environment [Env] of oracles, and what the program does to them is
    recorded, in order, in the trace of the program state.  A method is a
    computation in a reader/state/exception monad [M]; [try]/[except] and
    [with] are combinators of that monad.

    Python floats are modelled by rationals ([Q]); the only arithmetic the
    program does on them is a subtraction, a multiplication by 1000 and a
    division of small counts. *)

From Stdlib Require Import String Ascii List ZArith QArith Bool Lia.
From Stdlib Require DecimalString.
Import ListNotations.

Local Open Scope string_scope.
Local Open Scope list_scope.

Set Warnings "-register-all".

(** ** Python values *)

(** The values that travel through [details] and the metrics mapping.
    Tuples and lists are both [PList]; mapping keys are strings. *)
Inductive pyval : Type :=
| PNone
| PBool (b : bool)
| PInt (z : Z)
| PFloat (q : Q)
| PStr (s : string)
| PList (l : list pyval)
| PDict (d : list (string * pyval)).

(** A [dict] with string keys: an association list in insertion order,
    keys unique as long as it is built with [dict_set]. *)
Definition dict (V : Type) : Type := list (string * V).

Fixpoint dict_get {V} (d : dict V) (k : string) : option V :=
  match d with
  | [] => None
  | (k', v) :: rest => if String.eqb k' k then Some v else dict_get rest k
  end.

(** [k in d] *)
Definition dict_contains {V} (d : dict V) (k : string) : bool :=
  match dict_get d k with Some _ => true | None => false end.

(** [d[k] = v]: overwrite in place, or append a new key at the end. *)
Fixpoint dict_set {V} (d : dict V) (k : string) (v : V) : dict V :=
  match d with
  | [] => [(k, v)]
  | (k', v') :: rest =>
      if String.eqb k' k then (k', v) :: rest else (k', v') :: dict_set rest k v
  end.

(** [d.keys()], [d.values()] *)
Definition keys {V} (d : dict V) : list string := map fst d.
Definition values {V} (d : dict V) : list V := map snd d.

(** ** Exceptions *)

(** Instances of [Exception]: what [except Exception] catches.  The class
    is kept because [collect_system_metrics] catches [ImportError] only. *)
Inductive ExcClass : Type :=
| ImportError
| ModuleNotFoundError
| KeyError
| TypeError
| IndexError
| OSError
| OtherError (name : string).

Record PyException : Type := mkExc {
  exc_class : ExcClass;
  exc_str : string          (* str(e) *)
}.

(** [isinstance(e, ImportError)] *)
Definition is_ImportError (e : PyException) : bool :=
  match exc_class e with
  | ImportError | ModuleNotFoundError => true
  | _ => false
  end.

Inductive Outcome (A : Type) : Type :=
| Returned (a : A)
| Raised (e : PyException).
Arguments Returned {A} a.
Arguments Raised {A} e.

(** ** The record of one probe *)

Record SystemHealth : Type := mkSystemHealth {
  component : string;
  status : string;
  response_time_ms : Q;
  last_check : Q;                 (* a datetime, as seconds *)
  details : dict pyval
}.

(** ** External calls and the trace *)

(** The calls into third-party code that may raise. *)
Inductive Dep : Type :=
| import_psycopg2 | psycopg2_connect | conn_cursor | cur_execute
| cur_fetchone | cur_exit | conn_close
| import_redis | redis_Redis | r_ping | r_setex | r_get | r_delete
| import_elasticsearch | elasticsearch_Elasticsearch | es_ping
| es_cluster_health
| import_neo4j | GraphDatabase_driver | driver_session | session_run
| result_records | session_exit | driver_close
| import_psutil | psutil_cpu_percent | psutil_virtual_memory
| psutil_disk_usage
| open_report | json_dump | file_exit
| logging_basicConfig.

Inductive Event : Type :=
| Called (c : Dep)
| TimeRead                         (* time.time() *)
| NowRead                          (* datetime.now() *)
| Slept (secs : Q)                 (* time.sleep *)
| Logged (level msg : string)      (* self.logger.<level>(msg) *)
| Printed (msg : string).

(** What the outside world answers during one run. *)
Record Env : Type := mkEnv {
  time_time_at : nat -> Q;         (* n-th reading of time.time() *)
  datetime_now_at : nat -> Q;      (* n-th reading of datetime.now() *)
  isoformat : Q -> string;         (* datetime.isoformat() *)
  format_2f : Q -> string;         (* format(x, ".2f") *)
  fails : Dep -> option PyException;  (* the call raises this *)
  fetchone_row : option (list pyval); (* cur.fetchone(): a row or None *)
  ping_result : bool;              (* es.ping() *)
  cluster_health : dict pyval;     (* es.cluster.health() *)
  graph_records : list pyval;      (* record.data() of each record *)
  cpu_percent : Q;
  memory_percent : Q;
  disk_percent : Q
}.

(** The object's fields, and the bookkeeping of the world. *)
Record State : Type := mkState {
  self_health_status : dict SystemHealth;
  self_metrics : dict pyval;
  self_start_time : Q;
  time_reads : nat;
  now_reads : nat;
  trace : list Event
}.

(** ** The monad *)

Definition M (A : Type) : Type := Env -> State -> Outcome A * State.

Definition ret {A} (a : A) : M A := fun _ st => (Returned a, st).

Definition raise {A} (e : PyException) : M A := fun _ st => (Raised e, st).

Definition bind {A B} (m : M A) (f : A -> M B) : M B :=
  fun env st =>
    match m env st with
    | (Returned a, st1) => f a env st1
    | (Raised e, st1) => (Raised e, st1)
    end.

Notation "x <- m ;; k" := (bind m (fun x => k))
  (at level 61, m at next level, right associativity).
Notation "m ;; k" := (bind m (fun _ => k))
  (at level 61, right associativity).

(** [try: body  except Exception as e: handler e] *)
Definition try_except {A} (body : M A) (handler : PyException -> M A) : M A :=
  fun env st =>
    match body env st with
    | (Returned a, st1) => (Returned a, st1)
    | (Raised e, st1) => handler e env st1
    end.

(** A [try] whose protected part is [body] and that goes on with [rest]
    in the same block once [body] is through: an exception of [body] goes
    to [handler], and [rest] runs with the value of [body]. *)
Definition try_then {A B} (body : M A) (handler : PyException -> M B)
    (rest : A -> M B) : M B :=
  fun env st =>
    match body env st with
    | (Returned a, st1) => rest a env st1
    | (Raised e, st1) => handler e env st1
    end.

(** [try: body  except ImportError: handler], then [rest] with the value
    of the body; any other exception passes through. *)
Definition try_except_ImportError {A B} (body : M A) (handler : M B)
    (rest : A -> M B) : M B :=
  try_then body
    (fun e => if is_ImportError e then handler else raise e)
    rest.

(** [with enter as x: body]; [exit_] runs on both ways out and does not
    swallow the exception of the body. *)
Definition with_ {A} (enter exit_ : M unit) (body : M A) : M A :=
  fun env st =>
    match enter env st with
    | (Raised e, st1) => (Raised e, st1)
    | (Returned _, st1) =>
        match body env st1 with
        | (Returned a, st2) =>
            match exit_ env st2 with
            | (Returned _, st3) => (Returned a, st3)
            | (Raised e', st3) => (Raised e', st3)
            end
        | (Raised e, st2) =>
            match exit_ env st2 with
            | (Returned _, st3) => (Raised e, st3)
            | (Raised e', st3) => (Raised e', st3)
            end
        end
    end.

(** ** Primitive effects *)

Definition emit (ev : Event) (st : State) : State :=
  {| self_health_status := self_health_status st;
     self_metrics := self_metrics st;
     self_start_time := self_start_time st;
     time_reads := time_reads st;
     now_reads := now_reads st;
     trace := trace st ++ [ev] |}.

(** A third-party call with no interesting result. *)
Definition call (c : Dep) : M unit :=
  fun env st =>
    match fails env c with
    | Some e => (Raised e, emit (Called c) st)
    | None => (Returned tt, emit (Called c) st)
    end.

(** A third-party call whose result [v] is used. *)
Definition call_val {A} (c : Dep) (v : Env -> A) : M A :=
  fun env st =>
    match fails env c with
    | Some e => (Raised e, emit (Called c) st)
    | None => (Returned (v env), emit (Called c) st)
    end.

Definition time_time : M Q :=
  fun env st =>
    (Returned (time_time_at env (time_reads st)),
     {| self_health_status := self_health_status st;
        self_metrics := self_metrics st;
        self_start_time := self_start_time st;
        time_reads := S (time_reads st);
        now_reads := now_reads st;
        trace := trace st ++ [TimeRead] |}).

Definition datetime_now : M Q :=
  fun env st =>
    (Returned (datetime_now_at env (now_reads st)),
     {| self_health_status := self_health_status st;
        self_metrics := self_metrics st;
        self_start_time := self_start_time st;
        time_reads := time_reads st;
        now_reads := S (now_reads st);
        trace := trace st ++ [NowRead] |}).

(** [time.sleep] and the logger raise no [Exception]: the logging module
    reports a failing handler on stderr and goes on. *)
Definition time_sleep (secs : Q) : M unit :=
  fun _ st => (Returned tt, emit (Slept secs) st).

Definition logger_info (msg : string) : M unit :=
  fun _ st => (Returned tt, emit (Logged "info" msg) st).

Definition logger_warning (msg : string) : M unit :=
  fun _ st => (Returned tt, emit (Logged "warning" msg) st).

Definition logger_error (msg : string) : M unit :=
  fun _ st => (Returned tt, emit (Logged "error" msg) st).

Definition print (msg : string) : M unit :=
  fun _ st => (Returned tt, emit (Printed msg) st).

Definition ask {A} (f : Env -> A) : M A := fun env st => (Returned (f env), st).

Definition get_health_status : M (dict SystemHealth) :=
  fun _ st => (Returned (self_health_status st), st).

Definition get_start_time : M Q :=
  fun _ st => (Returned (self_start_time st), st).

Definition set_health_status (d : dict SystemHealth) : M unit :=
  fun _ st =>
    (Returned tt,
     {| self_health_status := d;
        self_metrics := self_metrics st;
        self_start_time := self_start_time st;
        time_reads := time_reads st;
        now_reads := now_reads st;
        trace := trace st |}).

Definition set_metrics (m : dict pyval) : M unit :=
  fun _ st =>
    (Returned tt,
     {| self_health_status := self_health_status st;
        self_metrics := m;
        self_start_time := self_start_time st;
        time_reads := time_reads st;
        now_reads := now_reads st;
        trace := trace st |}).

Definition set_start_time (t : Q) : M unit :=
  fun _ st =>
    (Returned tt,
     {| self_health_status := self_health_status st;
        self_metrics := self_metrics st;
        self_start_time := t;
        time_reads := time_reads st;
        now_reads := now_reads st;
        trace := trace st |}).

(** ** The probes *)

(** [(time.time() - start_time) * 1000] *)
Definition elapsed_ms (start_time : Q) : M Q :=
  t <- time_time ;; ret ((t - start_time) * 1000)%Q.

(** [cur.fetchone()[0]] *)
Definition first_column (row : option (list pyval)) : M pyval :=
  match row with
  | None => raise (mkExc TypeError "'NoneType' object is not subscriptable")
  | Some [] => raise (mkExc IndexError "tuple index out of range")
  | Some (c :: _) => ret c
  end.

(** [d[k]] on a mapping *)
Definition subscript (d : dict pyval) (k : string) : M pyval :=
  match dict_get d k with
  | Some v => ret v
  | None => raise (mkExc KeyError ("'" ++ k ++ "'"))
  end.

(** [v == s] for a string literal [s] *)
Definition py_eq_str (v : pyval) (s : string) : bool :=
  match v with
  | PStr s' => String.eqb s' s
  | _ => false
  end.

(** [v in ['green', 'yellow']] *)
Definition in_green_yellow (v : pyval) : bool :=
  py_eq_str v "green" || py_eq_str v "yellow".

(** The [except Exception as e] branch, the same in the four probes up to
    the component name. *)
Definition unhealthy_from (name : string) (start_time : Q) (e : PyException)
    : M SystemHealth :=
  response_time <- elapsed_ms start_time ;;
  last <- datetime_now ;;
  ret {| component := name;
         status := "unhealthy";
         response_time_ms := response_time;
         last_check := last;
         details := [("error", PStr (exc_str e))] |}.

Definition check_database_health_try (start_time : Q) : M SystemHealth :=
  call import_psycopg2 ;;
  call psycopg2_connect ;;
  count <- with_ (call conn_cursor) (call cur_exit)
             (call cur_execute ;;
              row <- call_val cur_fetchone fetchone_row ;;
              first_column row) ;;
  call conn_close ;;
  response_time <- elapsed_ms start_time ;;
  last <- datetime_now ;;
  ret {| component := "database";
         status := "healthy";
         response_time_ms := response_time;
         last_check := last;
         details := [("paper_count", count)] |}.

Definition check_database_health : M SystemHealth :=
  start_time <- time_time ;;
  try_except (check_database_health_try start_time)
             (unhealthy_from "database" start_time).

Definition check_cache_health_try (start_time : Q) : M SystemHealth :=
  call import_redis ;;
  call redis_Redis ;;
  call r_ping ;;
  _ <- time_time ;;                 (* test_key = f"health_check:{int(time.time())}" *)
  call r_setex ;;
  call r_get ;;
  call r_delete ;;
  response_time <- elapsed_ms start_time ;;
  last <- datetime_now ;;
  ret {| component := "cache";
         status := "healthy";
         response_time_ms := response_time;
         last_check := last;
         details := [("operation", PStr "ping_and_test")] |}.

Definition check_cache_health : M SystemHealth :=
  start_time <- time_time ;;
  try_except (check_cache_health_try start_time)
             (unhealthy_from "cache" start_time).

Definition check_search_health_try (start_time : Q) : M SystemHealth :=
  call import_elasticsearch ;;
  call elasticsearch_Elasticsearch ;;
  pong <- call_val es_ping ping_result ;;
  if pong then
    health <- call_val es_cluster_health cluster_health ;;
    response_time <- elapsed_ms start_time ;;
    cluster_status <- subscript health "status" ;;
    last <- datetime_now ;;
    ret {| component := "search";
           status := if in_green_yellow cluster_status
                     then "healthy" else "degraded";
           response_time_ms := response_time;
           last_check := last;
           details := health |}
  else
    response_time <- elapsed_ms start_time ;;
    last <- datetime_now ;;
    ret {| component := "search";
           status := "unhealthy";
           response_time_ms := response_time;
           last_check := last;
           details := [("error", PStr "ping_failed")] |}.

Definition check_search_health : M SystemHealth :=
  start_time <- time_time ;;
  try_except (check_search_health_try start_time)
             (unhealthy_from "search" start_time).

Definition check_graph_health_try (start_time : Q) : M SystemHealth :=
  call import_neo4j ;;
  call GraphDatabase_driver ;;
  components <- with_ (call driver_session) (call session_exit)
                  (call session_run ;;
                   call_val result_records graph_records) ;;
  call driver_close ;;
  response_time <- elapsed_ms start_time ;;
  last <- datetime_now ;;
  ret {| component := "graph";
         status := "healthy";
         response_time_ms := response_time;
         last_check := last;
         details := [("components", PList components)] |}.

Definition check_graph_health : M SystemHealth :=
  start_time <- time_time ;;
  try_except (check_graph_health_try start_time)
             (unhealthy_from "graph" start_time).

(** ** Running the probes *)

(** [str.upper()] on ASCII letters *)
Definition upper_ascii (c : ascii) : ascii :=
  let n := nat_of_ascii c in
  if (97 <=? n)%nat && (n <=? 122)%nat then ascii_of_nat (n - 32) else c.

Fixpoint upper (s : string) : string :=
  match s with
  | EmptyString => EmptyString
  | String c rest => String (upper_ascii c) (upper rest)
  end.

Fixpoint for_each {A} (l : list A) (f : A -> M unit) : M unit :=
  match l with
  | [] => ret tt
  | x :: rest => f x ;; for_each rest f
  end.

(** The probe methods as [run_health_checks] finds them on [self]. *)
Record ProbeMethods : Type := mkProbeMethods {
  self_check_database_health : M SystemHealth;
  self_check_cache_health : M SystemHealth;
  self_check_search_health : M SystemHealth;
  self_check_graph_health : M SystemHealth
}.

Definition run_health_checks_on (self : ProbeMethods)
    : M (dict SystemHealth) :=
  logger_info "Starting system health checks..." ;;
  database <- self_check_database_health self ;;
  cache <- self_check_cache_health self ;;
  search <- self_check_search_health self ;;
  graph <- self_check_graph_health self ;;
  let health_checks :=
    [("database", database); ("cache", cache);
     ("search", search); ("graph", graph)] in
  set_health_status health_checks ;;
  for_each health_checks
    (fun kv =>
       ms <- ask (fun env => format_2f env (response_time_ms (snd kv))) ;;
       logger_info (upper (fst kv) ++ ": " ++ status (snd kv)
                    ++ " (" ++ ms ++ "ms)")) ;;
  ret health_checks.

(** The methods of the class itself. *)
Definition PaperlySystemPOC : ProbeMethods :=
  {| self_check_database_health := check_database_health;
     self_check_cache_health := check_cache_health;
     self_check_search_health := check_search_health;
     self_check_graph_health := check_graph_health |}.

Definition run_health_checks : M (dict SystemHealth) :=
  run_health_checks_on PaperlySystemPOC.

(** ** Metrics *)

(** [if name in self.health_status:
       metrics[name + '_response_ms'] = self.health_status[name].response_time_ms] *)
Definition copy_response_ms (health_status : dict SystemHealth)
    (name : string) (metrics : dict pyval) : dict pyval :=
  match dict_get health_status name with
  | Some h => dict_set metrics (name ++ "_response_ms")
                       (PFloat (response_time_ms h))
  | None => metrics
  end.

Definition collect_system_metrics : M (dict pyval) :=
  try_except_ImportError (call import_psutil)
    (logger_warning "psutil not available, skipping system metrics" ;;
     now <- datetime_now ;;
     stamp <- ask (fun env => isoformat env now) ;;
     ret [("timestamp", PStr stamp)])
    (fun _ =>
       now <- datetime_now ;;
       stamp <- ask (fun env => isoformat env now) ;;
       now' <- datetime_now ;;
       start_time <- get_start_time ;;
       cpu <- call_val psutil_cpu_percent cpu_percent ;;
       memory <- call_val psutil_virtual_memory memory_percent ;;
       disk <- call_val psutil_disk_usage disk_percent ;;
       let metrics :=
         [("timestamp", PStr stamp);
          ("uptime_seconds", PFloat (now' - start_time)%Q);
          ("cpu_percent", PFloat cpu);
          ("memory_percent", PFloat memory);
          ("disk_percent", PFloat disk)] in
       health_status <- get_health_status ;;
       let metrics := copy_response_ms health_status "database" metrics in
       let metrics := copy_response_ms health_status "cache" metrics in
       let metrics := copy_response_ms health_status "search" metrics in
       let metrics := copy_response_ms health_status "graph" metrics in
       set_metrics metrics ;;
       ret metrics).

(** ** The system report *)

Module Summary.
Record t : Type := mk {
  healthy : nat;
  degraded : nat;
  unhealthy : nat;
  total : nat
}.
End Summary.

Module Report.
Record t : Type := mk {
  overall_status : string;
  timestamp : string;
  uptime_seconds : pyval;
  health_checks : dict SystemHealth;     (* asdict keeps every field *)
  system_metrics : dict pyval;
  component_summary : Summary.t
}.
End Report.

(** The three-way roll-up of [generate_system_report]. *)
Definition overall_status (statuses : list string) : string :=
  if forallb (fun status => status =? "healthy") statuses then "healthy"
  else if existsb (fun status => status =? "unhealthy") statuses
       then "degraded"
  else "healthy".

(** [sum(1 for s in statuses if s == name)] *)
Definition count_status (name : string) (statuses : list string) : nat :=
  list_sum (map (fun _ => 1%nat) (filter (fun s => s =? name) statuses)).

Definition component_summary (statuses : list string) : Summary.t :=
  {| Summary.healthy := count_status "healthy" statuses;
     Summary.degraded := count_status "degraded" statuses;
     Summary.unhealthy := count_status "unhealthy" statuses;
     Summary.total := length statuses |}.

(** [d.get(k, default)] *)
Definition dict_get_default {V} (d : dict V) (k : string) (default : V) : V :=
  match dict_get d k with Some v => v | None => default end.

(** The report literal of [generate_system_report], given the two
    mappings and the reading of the clock. *)
Definition report (health_status : dict SystemHealth)
    (system_metrics : dict pyval) (stamp : string) : Report.t :=
  let statuses := map status (values health_status) in
  {| Report.overall_status := overall_status statuses;
     Report.timestamp := stamp;
     Report.uptime_seconds :=
       dict_get_default system_metrics "uptime_seconds" (PInt 0);
     Report.health_checks := health_status;
     Report.system_metrics := system_metrics;
     Report.component_summary := component_summary statuses |}.

Definition generate_system_report_on (self : ProbeMethods) : M Report.t :=
  health_status <- run_health_checks_on self ;;
  system_metrics <- collect_system_metrics ;;
  now <- datetime_now ;;
  stamp <- ask (fun env => isoformat env now) ;;
  ret (report health_status system_metrics stamp).

Definition generate_system_report : M Report.t :=
  generate_system_report_on PaperlySystemPOC.

(** ** The demos *)

Module Paper.
Record t : Type := mk {
  id : string;
  title : string;
  abstract : string;
  authors : list string;
  year : Z;
  journal : string;
  doi : string;
  keywords : list string;
  citation_count : Z
}.
End Paper.

Definition demo_papers : list Paper.t :=
  [ {| Paper.id := "demo_paper_001";
       Paper.title := "Machine Learning Applications in Scientific Research";
       Paper.abstract := "This paper explores various machine learning applications in scientific research, focusing on data analysis and pattern recognition techniques.";
       Paper.authors := ["Dr. Jane Smith"; "Prof. John Doe"];
       Paper.year := 2024;
       Paper.journal := "Journal of AI Research";
       Paper.doi := "10.1000/demo.001";
       Paper.keywords :=
         ["machine learning"; "scientific research"; "data analysis"];
       Paper.citation_count := 25 |};
    {| Paper.id := "demo_paper_002";
       Paper.title := "Advanced Natural Language Processing for Academic Literature";
       Paper.abstract := "We present advanced NLP techniques for processing academic literature, including entity extraction and relationship mapping.";
       Paper.authors := ["Dr. Alice Brown"; "Dr. Bob Wilson"];
       Paper.year := 2024;
       Paper.journal := "Computational Linguistics Review";
       Paper.doi := "10.1000/demo.002";
       Paper.keywords :=
         ["natural language processing"; "academic literature"; "text mining"];
       Paper.citation_count := 18 |} ].

Module PaperProcessing.
Record t : Type := mk {
  total_papers : nat;
  processed : nat;
  failed : nat;
  success_rate : Q
}.
End PaperProcessing.

(** One turn of the loop of [demo_paper_processing], on the two counters.
    [processed_count] is incremented between the two log lines, so an
    exception after it would count the paper on both sides. *)
Definition process_paper (paper : Paper.t) (counts : nat * nat)
    : M (nat * nat) :=
  let '(processed_count, failed_count) := counts in
  let on_error (processed_count : nat) (e : PyException) :=
    logger_error ("Failed to process paper " ++ Paper.id paper ++ ": "
                  ++ exc_str e) ;;
    ret (processed_count, (failed_count + 1)%nat) in
  try_then
    (logger_info ("Processing paper: " ++ Paper.title paper) ;;
     time_sleep (1 # 10))
    (on_error processed_count)
    (fun _ =>
       let processed_count := (processed_count + 1)%nat in
       try_then
         (logger_info ("Successfully processed paper: " ++ Paper.id paper))
         (on_error processed_count)
         (fun _ => ret (processed_count, failed_count))).

Fixpoint process_papers (papers : list Paper.t) (counts : nat * nat)
    : M (nat * nat) :=
  match papers with
  | [] => ret counts
  | paper :: rest =>
      counts' <- process_paper paper counts ;;
      process_papers rest counts'
  end.

Definition Q_of_nat (n : nat) : Q := inject_Z (Z.of_nat n).

Definition demo_paper_processing : M PaperProcessing.t :=
  logger_info "Running paper processing demonstration..." ;;
  counts <- process_papers demo_papers (0%nat, 0%nat) ;;
  let '(processed_count, failed_count) := counts in
  ret {| PaperProcessing.total_papers := length demo_papers;
         PaperProcessing.processed := processed_count;
         PaperProcessing.failed := failed_count;
         PaperProcessing.success_rate :=
           (Q_of_nat processed_count / Q_of_nat (length demo_papers)
            * 100)%Q |}.

Module SearchHit.
Record t : Type := mk {
  title : string;
  relevance : Q
}.
End SearchHit.

Module SearchFunctionality.
Record t : Type := mk {
  queries_processed : nat;
  total_results : nat;
  average_results_per_query : Q;
  sample_results : dict (list SearchHit.t)
}.
End SearchFunctionality.

Definition demo_queries : list string :=
  ["machine learning"; "natural language processing";
   "data analysis techniques"; "scientific research methods"].

(** [str(n)] *)
Definition str_of_nat (n : nat) : string :=
  DecimalString.NilZero.string_of_uint (Nat.to_uint n).

Definition mock_results (query : string) : list SearchHit.t :=
  [ {| SearchHit.title := "Paper about " ++ query;
       SearchHit.relevance := 95 # 100 |};
    {| SearchHit.title := "Advanced " ++ query ++ " techniques";
       SearchHit.relevance := 87 # 100 |};
    {| SearchHit.title := query ++ " in practice";
       SearchHit.relevance := 73 # 100 |} ].

Fixpoint search_queries (queries : list string)
    (search_results : dict (list SearchHit.t))
    : M (dict (list SearchHit.t)) :=
  match queries with
  | [] => ret search_results
  | query :: rest =>
      logger_info ("Searching for: " ++ query) ;;
      time_sleep (1 # 10) ;;
      let results := mock_results query in
      let search_results := dict_set search_results query results in
      logger_info ("Found " ++ str_of_nat (length results)
                   ++ " results for: " ++ query) ;;
      search_queries rest search_results
  end.

Definition demo_search_functionality : M SearchFunctionality.t :=
  logger_info "Demonstrating search functionality..." ;;
  search_results <- search_queries demo_queries [] ;;
  let found := list_sum (map (fun r => length r) (values search_results)) in
  ret {| SearchFunctionality.queries_processed := length demo_queries;
         SearchFunctionality.total_results := found;
         SearchFunctionality.average_results_per_query :=
           (Q_of_nat found / Q_of_nat (length demo_queries))%Q;
         SearchFunctionality.sample_results := search_results |}.

Module DemoInfo.
Record t : Type := mk {
  start_time : string;
  duration_seconds : Q;
  status : string
}.
End DemoInfo.

Module DemoSummary.
Record t : Type := mk {
  overall_health : string;
  papers_processed : nat;
  search_queries : nat;
  demo_success : bool
}.
End DemoSummary.

Module Demo.
Record t : Type := mk {
  demo_info : DemoInfo.t;
  system_health : Report.t;
  paper_processing : PaperProcessing.t;
  search_functionality : SearchFunctionality.t;
  summary : DemoSummary.t
}.
End Demo.

Definition run_comprehensive_demo_on (self : ProbeMethods) : M Demo.t :=
  logger_info "Starting Paperly.utec POC comprehensive demonstration" ;;
  demo_start <- datetime_now ;;
  system_report <- generate_system_report_on self ;;
  processing_demo <- demo_paper_processing ;;
  search_demo <- demo_search_functionality ;;
  demo_end <- datetime_now ;;
  let demo_duration := (demo_end - demo_start)%Q in
  stamp <- ask (fun env => isoformat env demo_start) ;;
  let comprehensive_report :=
    {| Demo.demo_info :=
         {| DemoInfo.start_time := stamp;
            DemoInfo.duration_seconds := demo_duration;
            DemoInfo.status := "completed" |};
       Demo.system_health := system_report;
       Demo.paper_processing := processing_demo;
       Demo.search_functionality := search_demo;
       Demo.summary :=
         {| DemoSummary.overall_health := Report.overall_status system_report;
            DemoSummary.papers_processed :=
              PaperProcessing.processed processing_demo;
            DemoSummary.search_queries :=
              SearchFunctionality.queries_processed search_demo;
            DemoSummary.demo_success := true |} |} in
  with_ (call open_report) (call file_exit) (call json_dump) ;;
  logger_info "POC demonstration completed successfully" ;;
  logger_info "Report saved to paperly_poc_demo_report.json" ;;
  ret comprehensive_report.

Definition run_comprehensive_demo : M Demo.t :=
  run_comprehensive_demo_on PaperlySystemPOC.

(** [setup_logging]: the handlers are created (the log file is opened)
    and the logger is looked up. *)
Definition setup_logging : M unit := call logging_basicConfig.

(** [PaperlySystemPOC.__init__] *)
Definition init : M unit :=
  setup_logging ;;
  set_health_status [] ;;
  set_metrics [] ;;
  now <- datetime_now ;;
  set_start_time now.

Fixpoint repeat_str (s : string) (n : nat) : string :=
  match n with
  | O => ""
  | S n' => s ++ repeat_str s n'
  end.

Definition main : M (option Demo.t) :=
  print "Starting Paperly.utec POC System Demo" ;;
  print (repeat_str "=" 50) ;;
  init ;;
  try_except
    (demo_report <- run_comprehensive_demo ;;
     print ("Demo Status: "
            ++ DemoInfo.status (Demo.demo_info demo_report)) ;;
     print ("System Health: "
            ++ Report.overall_status (Demo.system_health demo_report)) ;;
     print ("Papers Processed: "
            ++ str_of_nat (PaperProcessing.processed
                             (Demo.paper_processing demo_report))) ;;
     print ("Search Queries: "
            ++ str_of_nat (SearchFunctionality.queries_processed
                             (Demo.search_functionality demo_report))) ;;
     secs <- ask (fun env =>
                    format_2f env (DemoInfo.duration_seconds
                                     (Demo.demo_info demo_report))) ;;
     print ("Duration: " ++ secs ++ "s") ;;
     ret (Some demo_report))
    (fun e =>
       logger_error ("Demo failed: " ++ exc_str e) ;;
       ret None).

(** ** A quiet world, for concrete runs *)

Definition boot : State :=
  {| self_health_status := [];
     self_metrics := [];
     self_start_time := 0;
     time_reads := 0;
     now_reads := 0;
     trace := [] |}.

(** Every dependency answers; the clock advances one second per reading. *)
Definition calm : Env :=
  {| time_time_at := fun n => Q_of_nat n;
     datetime_now_at := fun n => Q_of_nat n;
     isoformat := fun _ => "2024-01-01T00:00:00";
     format_2f := fun _ => "0.00";
     fails := fun _ => None;
     fetchone_row := Some [PInt 7];
     ping_result := true;
     cluster_health := [("status", PStr "green")];
     graph_records := [];
     cpu_percent := 0;
     memory_percent := 0;
     disk_percent := 0 |}.

(** [calm], except that the call [c] raises [e]. *)
Definition dep_eqb (a b : Dep) : bool :=
  match a, b with
  | import_psycopg2, import_psycopg2 | psycopg2_connect, psycopg2_connect
  | conn_cursor, conn_cursor | cur_execute, cur_execute
  | cur_fetchone, cur_fetchone | cur_exit, cur_exit
  | conn_close, conn_close
  | import_redis, import_redis | redis_Redis, redis_Redis
  | r_ping, r_ping | r_setex, r_setex | r_get, r_get | r_delete, r_delete
  | import_elasticsearch, import_elasticsearch
  | elasticsearch_Elasticsearch, elasticsearch_Elasticsearch
  | es_ping, es_ping | es_cluster_health, es_cluster_health
  | import_neo4j, import_neo4j | GraphDatabase_driver, GraphDatabase_driver
  | driver_session, driver_session | session_run, session_run
  | result_records, result_records | session_exit, session_exit
  | driver_close, driver_close
  | import_psutil, import_psutil | psutil_cpu_percent, psutil_cpu_percent
  | psutil_virtual_memory, psutil_virtual_memory
  | psutil_disk_usage, psutil_disk_usage
  | open_report, open_report | json_dump, json_dump
  | file_exit, file_exit
  | logging_basicConfig, logging_basicConfig => true
  | _, _ => false
  end.

Definition failing (c : Dep) (e : PyException) : Env :=
  {| time_time_at := time_time_at calm;
     datetime_now_at := datetime_now_at calm;
     isoformat := isoformat calm;
     format_2f := format_2f calm;
     fails := fun c' => if dep_eqb c' c then Some e else None;
     fetchone_row := fetchone_row calm;
     ping_result := ping_result calm;
     cluster_health := cluster_health calm;
     graph_records := graph_records calm;
     cpu_percent := cpu_percent calm;
     memory_percent := memory_percent calm;
     disk_percent := disk_percent calm |}.

(** * The test script

    [testing_script.py], class [PaperlyTester]: seven checks that record
    their outcome with [log_result], and the runner that counts the checks
    that answer a true value.  The script has its own dependencies and its
    own object, so it has its own environment, state and monad, built like
    the ones above. *)

Module Tester.

(** One entry of [self.results]. *)
Record Result : Type := mkResult {
  timestamp : string;
  component : string;
  status : string;
  message : string
}.

Inductive Dep : Type :=
| psycopg2_connect | conn_cursor | cur_execute | cur_fetchone
| cur_fetchall | cur_exit | conn_close
| redis_Redis | r_ping | r_setex | r_get | r_delete
| r_set_bench (i : nat) | r_get_bench (i : nat)
| elasticsearch_Elasticsearch | es_ping | es_index | es_indices_delete
| GraphDatabase_driver | driver_session | session_run | result_single
| session_exit | driver_close
| requests_get (endpoint : string)
| import_paperly_pipeline | PaperlyPipeline_new | is_scientific_paper
| open_results | json_dump | file_exit.

Inductive Event : Type :=
| Called (c : Dep)
| TimeRead
| NowRead
| Logged (msg : string)            (* self.logger.info(msg) *)
| Printed (msg : string).

Record Env : Type := mkEnv {
  time_time_at : nat -> Q;
  datetime_now_at : nat -> Q;
  isoformat : Q -> string;
  format_2f : Q -> string;           (* format(x, ".2f") *)
  format_1f : Q -> string;           (* format(x, ".1f") *)
  str : pyval -> string;             (* str(v) *)
  fails : Dep -> option PyException;
  is_RequestException : PyException -> bool;
                                     (* isinstance(e, RequestException) *)
  fetchone_row : option (list pyval);
  ping_result : bool;
  single_record : option (dict pyval);  (* result.single() *)
  status_code : string -> Z;         (* of the response of an endpoint *)
  is_scientific : bool               (* the answer of the classifier *)
}.

Record State : Type := mkState {
  results : list Result;             (* self.results *)
  time_reads : nat;
  now_reads : nat;
  trace : list Event
}.

Definition T (A : Type) : Type := Env -> State -> Outcome A * State.

Definition ret {A} (a : A) : T A := fun _ st => (Returned a, st).

Definition raise {A} (e : PyException) : T A := fun _ st => (Raised e, st).

Definition bind {A B} (m : T A) (f : A -> T B) : T B :=
  fun env st =>
    match m env st with
    | (Returned a, st1) => f a env st1
    | (Raised e, st1) => (Raised e, st1)
    end.

Declare Scope tester_scope.
Notation "x <- m ;; k" := (bind m (fun x => k))
  (at level 61, m at next level, right associativity) : tester_scope.
Notation "m ;; k" := (bind m (fun _ => k))
  (at level 61, right associativity) : tester_scope.
Local Open Scope tester_scope.

(** A [try] whose protected part is [body]: an exception of [body] that
    [catches] accepts goes to [handler], any other passes through, and
    [rest] goes on with the value of [body]. *)
Definition try_then {A B} (catches : Env -> PyException -> bool)
    (body : T A) (handler : PyException -> T B) (rest : A -> T B) : T B :=
  fun env st =>
    match body env st with
    | (Returned a, st1) => rest a env st1
    | (Raised e, st1) =>
        if catches env e then handler e env st1 else (Raised e, st1)
    end.

(** [except Exception] *)
Definition any_Exception (_ : Env) (_ : PyException) : bool := true.

(** [try: body  except Exception as e: handler e] *)
Definition try_except {A} (body : T A) (handler : PyException -> T A) : T A :=
  try_then any_Exception body handler ret.

Definition with_ {A} (enter exit_ : T unit) (body : T A) : T A :=
  fun env st =>
    match enter env st with
    | (Raised e, st1) => (Raised e, st1)
    | (Returned _, st1) =>
        match body env st1 with
        | (Returned a, st2) =>
            match exit_ env st2 with
            | (Returned _, st3) => (Returned a, st3)
            | (Raised e', st3) => (Raised e', st3)
            end
        | (Raised e, st2) =>
            match exit_ env st2 with
            | (Returned _, st3) => (Raised e, st3)
            | (Raised e', st3) => (Raised e', st3)
            end
        end
    end.

Definition emit (ev : Event) (st : State) : State :=
  {| results := results st;
     time_reads := time_reads st;
     now_reads := now_reads st;
     trace := trace st ++ [ev] |}.

Definition call (c : Dep) : T unit :=
  fun env st =>
    match fails env c with
    | Some e => (Raised e, emit (Called c) st)
    | None => (Returned tt, emit (Called c) st)
    end.

Definition call_val {A} (c : Dep) (v : Env -> A) : T A :=
  fun env st =>
    match fails env c with
    | Some e => (Raised e, emit (Called c) st)
    | None => (Returned (v env), emit (Called c) st)
    end.

Definition time_time : T Q :=
  fun env st =>
    (Returned (time_time_at env (time_reads st)),
     {| results := results st;
        time_reads := S (time_reads st);
        now_reads := now_reads st;
        trace := trace st ++ [TimeRead] |}).

Definition datetime_now : T Q :=
  fun env st =>
    (Returned (datetime_now_at env (now_reads st)),
     {| results := results st;
        time_reads := time_reads st;
        now_reads := S (now_reads st);
        trace := trace st ++ [NowRead] |}).

Definition logger_info (msg : string) : T unit :=
  fun _ st => (Returned tt, emit (Logged msg) st).

Definition print (msg : string) : T unit :=
  fun _ st => (Returned tt, emit (Printed msg) st).

Definition ask {A} (f : Env -> A) : T A :=
  fun env st => (Returned (f env), st).

(** [self.results.append(result)] *)
Definition append_result (r : Result) : T unit :=
  fun _ st =>
    (Returned tt,
     {| results := results st ++ [r];
        time_reads := time_reads st;
        now_reads := now_reads st;
        trace := trace st |}).

(** ** [log_result] *)

Definition status_icon : dict string :=
  [("SUCCESS", "✅"); ("FAILED", "❌"); ("WARNING", "⚠️"); ("INFO", "ℹ️")].

Definition log_result (component status message : string) : T unit :=
  now <- datetime_now ;;
  stamp <- ask (fun env => isoformat env now) ;;
  append_result {| timestamp := stamp;
                   component := component;
                   status := status;
                   message := message |} ;;
  let icon := dict_get_default status_icon status "📋" in
  logger_info (icon ++ " " ++ component ++ ": " ++ message).

(** ** The seven checks *)

(** [True], [False] and [None], as a check returns them. *)
Definition py_True : pyval := PBool true.
Definition py_False : pyval := PBool false.

(** [row[0]] on the answer of [fetchone] *)
Definition first_column (row : option (list pyval)) : T pyval :=
  match row with
  | None => raise (mkExc TypeError "'NoneType' object is not subscriptable")
  | Some [] => raise (mkExc IndexError "tuple index out of range")
  | Some (c :: _) => ret c
  end.

Definition test_database_connection : T pyval :=
  try_except
    (call psycopg2_connect ;;
     count <- with_ (call conn_cursor) (call cur_exit)
                (call cur_execute ;;
                 row <- call_val cur_fetchone fetchone_row ;;
                 first_column row) ;;
     call conn_close ;;
     found <- ask (fun env => str env count) ;;
     log_result "DATABASE" "SUCCESS"
       ("Connected to PostgreSQL, " ++ found ++ " papers found") ;;
     ret py_True)
    (fun e =>
       log_result "DATABASE" "FAILED" (exc_str e) ;;
       ret py_False).

Definition test_redis_connection : T pyval :=
  try_except
    (call redis_Redis ;;
     call r_ping ;;
     _ <- time_time ;;               (* test_key = f"test:{int(time.time())}" *)
     call r_setex ;;
     call r_get ;;
     call r_delete ;;
     log_result "CACHE" "SUCCESS" "Redis connection and operations working" ;;
     ret py_True)
    (fun e =>
       log_result "CACHE" "FAILED" (exc_str e) ;;
       ret py_False).

Definition test_elasticsearch_connection : T pyval :=
  try_except
    (call elasticsearch_Elasticsearch ;;
     pong <- call_val es_ping ping_result ;;
     if pong then
       _ <- datetime_now ;;          (* the timestamp of test_doc *)
       call es_index ;;
       call es_indices_delete ;;
       log_result "SEARCH" "SUCCESS"
         "Elasticsearch connection and indexing working" ;;
       ret py_True
     else
       log_result "SEARCH" "FAILED" "Elasticsearch ping failed" ;;
       ret py_False)
    (fun e =>
       log_result "SEARCH" "FAILED" (exc_str e) ;;
       ret py_False).

(** [record["message"]] on the answer of [result.single()] *)
Definition message_of (record : option (dict pyval)) : T pyval :=
  match record with
  | None => raise (mkExc TypeError "'NoneType' object is not subscriptable")
  | Some d =>
      match dict_get d "message" with
      | Some v => ret v
      | None => raise (mkExc KeyError "'message'")
      end
  end.

Definition test_neo4j_connection : T pyval :=
  try_except
    (call GraphDatabase_driver ;;
     _ <- with_ (call driver_session) (call session_exit)
            (call session_run ;;
             record <- call_val result_single single_record ;;
             message_of record) ;;
     call driver_close ;;
     log_result "GRAPH" "SUCCESS" "Neo4j connection working" ;;
     ret py_True)
    (fun e =>
       log_result "GRAPH" "FAILED" (exc_str e) ;;
       ret py_False).

(** [except requests.exceptions.RequestException] *)
Definition RequestException (env : Env) (e : PyException) : bool :=
  is_RequestException env e.

(** [str(n)] for an integer *)
Definition str_of_Z (z : Z) : string :=
  DecimalString.NilZero.string_of_int (Z.to_int z).

(** One turn of the loop of [test_api_endpoints]. *)
Definition probe_endpoint (endpoint : string) : T unit :=
  try_then RequestException
    (call_val (requests_get endpoint) (fun env => status_code env endpoint))
    (fun _ =>
       log_result "API" "INFO"
         (endpoint ++ " not available (expected for POC)"))
    (fun code =>
       if (code =? 200)%Z || (code =? 404)%Z
       then log_result "API" "SUCCESS" (endpoint ++ " responsive")
       else log_result "API" "WARNING"
              (endpoint ++ " returned " ++ str_of_Z code)).

Fixpoint probe_endpoints (endpoints : list string) : T unit :=
  match endpoints with
  | [] => ret tt
  | endpoint :: rest => probe_endpoint endpoint ;; probe_endpoints rest
  end.

Definition endpoints : list string :=
  ["http://localhost:8000/health";
   "http://localhost:8000/api/papers";
   "http://localhost:8000/api/search"].

(** The function ends without a [return]: its value is [None]. *)
Definition test_api_endpoints : T pyval :=
  probe_endpoints endpoints ;;
  ret PNone.

(** [str(b)] for a boolean *)
Definition str_of_bool (b : bool) : string :=
  if b then "True" else "False".

Definition test_pipeline_components : T pyval :=
  try_except
    (call import_paperly_pipeline ;;
     call PaperlyPipeline_new ;;
     log_result "PIPELINE" "SUCCESS"
       "Pipeline components loaded successfully" ;;
     scientific <- call_val is_scientific_paper is_scientific ;;
     log_result "CLASSIFIER" (if scientific then "SUCCESS" else "WARNING")
       ("Classification result: " ++ str_of_bool scientific) ;;
     ret py_True)
    (fun e =>
       log_result "PIPELINE" "FAILED" (exc_str e) ;;
       ret py_False).

(** [for i in range(start, start + n): r.set(...); r.get(...)] *)
Fixpoint bench_loop (start n : nat) : T unit :=
  match n with
  | O => ret tt
  | S n' =>
      call (r_set_bench start) ;;
      call (r_get_bench start) ;;
      bench_loop (S start) n'
  end.

Definition test_performance_benchmarks : T pyval :=
  try_except
    (start_time <- time_time ;;
     call psycopg2_connect ;;
     with_ (call conn_cursor) (call cur_exit)
       (call cur_execute ;; call cur_fetchall) ;;
     call conn_close ;;
     now <- time_time ;;
     let db_time := ((now - start_time) * 1000)%Q in
     start_time <- time_time ;;
     call redis_Redis ;;
     bench_loop 0 100 ;;
     now <- time_time ;;
     let cache_time := ((now - start_time) * 1000)%Q in
     line <- ask (fun env =>
                    ("DB query: " ++ format_2f env db_time
                     ++ "ms, Cache ops: " ++ format_2f env cache_time
                     ++ "ms")%string) ;;
     log_result "PERFORMANCE" "SUCCESS" line ;;
     ret py_True)
    (fun e =>
       log_result "PERFORMANCE" "FAILED" (exc_str e) ;;
       ret py_False).

(** ** The runner *)

(** The truth value of what a check returns. *)
Definition truthy (v : pyval) : bool :=
  match v with
  | PNone => false
  | PBool b => b
  | PInt z => negb (z =? 0)%Z
  | PFloat q => negb (Qeq_bool q 0)
  | PStr s => negb (s =? "")%string
  | PList l => match l with [] => false | _ => true end
  | PDict d => match d with [] => false | _ => true end
  end.

Definition nl : string := String (ascii_of_nat 10) EmptyString.

(** The loop of [run_all_tests], on the counter [passed]. *)
Fixpoint run_tests (tests : list (string * T pyval)) (passed : nat)
    : T nat :=
  match tests with
  | [] => ret passed
  | (test_name, test_func) :: rest =>
      print (nl ++ "🧪 Running " ++ test_name ++ "...") ;;
      passed <- try_then any_Exception test_func
                  (fun e =>
                     log_result "TEST_RUNNER" "FAILED"
                       (test_name ++ " crashed: " ++ exc_str e) ;;
                     ret passed)
                  (fun v => ret (if truthy v then (passed + 1)%nat
                                 else passed)) ;;
      run_tests rest passed
  end.

(** [(passed / total) * 100] *)
Definition success_rate (passed total : nat) : T Q :=
  match total with
  | O => raise (mkExc (OtherError "ZeroDivisionError") "division by zero")
  | S _ => ret (Q_of_nat passed / Q_of_nat total * 100)%Q
  end.

Definition run_all_tests_on (tests : list (string * T pyval)) : T unit :=
  print "🚀 Starting Paperly.utec POC Test Suite" ;;
  print (repeat_str "=" 50) ;;
  let total := length tests in
  passed <- run_tests tests 0%nat ;;
  print (nl ++ repeat_str "=" 50) ;;
  print "📊 TEST SUMMARY" ;;
  print (repeat_str "=" 50) ;;
  print ("Tests Passed: " ++ str_of_nat passed ++ "/" ++ str_of_nat total) ;;
  rate <- success_rate passed total ;;
  shown <- ask (fun env => format_1f env rate) ;;
  print ("Success Rate: " ++ shown ++ "%") ;;
  with_ (call open_results) (call file_exit)
    (_ <- success_rate passed total ;;
     _ <- datetime_now ;;
     call json_dump) ;;
  print "📄 Detailed results saved to test_results.json".

Definition tests : list (string * T pyval) :=
  [("Database Connection", test_database_connection);
   ("Redis Cache", test_redis_connection);
   ("Elasticsearch", test_elasticsearch_connection);
   ("Neo4j Graph DB", test_neo4j_connection);
   ("API Endpoints", test_api_endpoints);
   ("Pipeline Components", test_pipeline_components);
   ("Performance Benchmarks", test_performance_benchmarks)].

Definition run_all_tests : T unit := run_all_tests_on tests.

End Tester.

(** * Vocabulary of the properties *)

(** The statuses a probe can report. *)
Definition valid_status (s : string) : Prop :=
  s = "healthy" \/ s = "degraded" \/ s = "unhealthy".

(** The result [h] and final state [st'] of a probe named [name] started
    in [st]: the name and a status of the three; a first event that reads
    the clock and two last events that read the clock and the date, the
    third-party calls in between; the latency as the difference of the
    last and the first clock reading; and the object's fields untouched. *)
Definition probe_post (name : string) (env : Env) (st : State)
    (h : SystemHealth) (st' : State) : Prop :=
  component h = name
  /\ valid_status (status h)
  /\ (exists evs, trace st' = trace st ++ evs
                  /\ hd_error evs = Some TimeRead
                  /\ firstn 2 (rev evs) = [NowRead; TimeRead])
  /\ response_time_ms h
     = ((time_time_at env (time_reads st' - 1)
         - time_time_at env (time_reads st)) * 1000)%Q
  /\ self_health_status st' = self_health_status st
  /\ self_metrics st' = self_metrics st
  /\ self_start_time st' = self_start_time st.

(** The four probes, to state what they share. *)
Inductive Probe : Type := Database | Cache | Search | Graph.

Definition probe_name (p : Probe) : string :=
  match p with
  | Database => "database"
  | Cache => "cache"
  | Search => "search"
  | Graph => "graph"
  end.

Definition probe_run (p : Probe) : M SystemHealth :=
  match p with
  | Database => check_database_health
  | Cache => check_cache_health
  | Search => check_search_health
  | Graph => check_graph_health
  end.

(** The [try] block of the probe. *)
Definition probe_try (p : Probe) : Q -> M SystemHealth :=
  match p with
  | Database => check_database_health_try
  | Cache => check_cache_health_try
  | Search => check_search_health_try
  | Graph => check_graph_health_try
  end.

(** The state in which the [try] block of a probe starts: [st] after the
    first reading of the clock. *)
Definition try_state (env : Env) (st : State) : State :=
  snd (time_time env st).

(** A database whose [connect] raises an error with an empty message. *)
Definition silent_refusal : Env :=
  failing psycopg2_connect (mkExc (OtherError "OperationalError") "").

(** A clock that is set back between two readings. *)
Definition rewound : Env :=
  {| time_time_at := fun n => (100 - Q_of_nat n)%Q;
     datetime_now_at := datetime_now_at calm;
     isoformat := isoformat calm;
     format_2f := format_2f calm;
     fails := fails calm;
     fetchone_row := fetchone_row calm;
     ping_result := ping_result calm;
     cluster_health := cluster_health calm;
     graph_records := graph_records calm;
     cpu_percent := cpu_percent calm;
     memory_percent := memory_percent calm;
     disk_percent := disk_percent calm |}.

(** A subclass whose database probe has a defect: it raises before it
    enters its [try] block. *)
Definition defective : ProbeMethods :=
  {| self_check_database_health :=
       raise (mkExc (OtherError "AttributeError")
                    "'NoneType' object has no attribute 'cursor'");
     self_check_cache_health := check_cache_health;
     self_check_search_health := check_search_health;
     self_check_graph_health := check_graph_health |}.

(** The host sampler is not installed. *)
Definition no_psutil : Env :=
  failing import_psutil
    (mkExc ModuleNotFoundError "No module named 'psutil'").

(** The [try] block gets to the answer of [es.ping()]. *)
Definition ping_answers (env : Env) : Prop :=
  fails env import_elasticsearch = None
  /\ fails env elasticsearch_Elasticsearch = None
  /\ fails env es_ping = None.

(** What [demo_paper_processing] reports. *)
Definition two_of_two : PaperProcessing.t :=
  {| PaperProcessing.total_papers := 2;
     PaperProcessing.processed := 2;
     PaperProcessing.failed := 0;
     PaperProcessing.success_rate := (Q_of_nat 2 / Q_of_nat 2 * 100)%Q |}.

(** The metrics collection does not raise: the sampler is missing with an
    [ImportError], or it is there and its three gauges answer. *)
Definition metrics_collected (env : Env) : Prop :=
  match fails env import_psutil with
  | Some e => is_ImportError e = true
  | None => fails env psutil_cpu_percent = None
            /\ fails env psutil_virtual_memory = None
            /\ fails env psutil_disk_usage = None
  end.

(** The report file is opened, written and closed without an error. *)
Definition report_written (env : Env) : Prop :=
  fails env open_report = None
  /\ fails env json_dump = None
  /\ fails env file_exit = None.

(** [m] returns, from every state. *)
Definition returns {A} (m : M A) (env : Env) : Prop :=
  forall st, exists a st', m env st = (Returned a, st').

(** Three results, one of each status. *)
Definition one_of_each : dict SystemHealth :=
  [("database", mkSystemHealth "database" "healthy" 12 0
                  [("paper_count", PInt 7)]);
   ("search", mkSystemHealth "search" "degraded" 30 1
                [("status", PStr "red")]);
   ("graph", mkSystemHealth "graph" "unhealthy" 5 2
               [("error", PStr "connection refused")])].

(** ** When a probe is healthy *)

(** Every call of the database probe answers and the query has a row
    with a first column. *)
Definition database_answers (env : Env) : Prop :=
  fails env import_psycopg2 = None
  /\ fails env psycopg2_connect = None
  /\ fails env conn_cursor = None
  /\ fails env cur_execute = None
  /\ fails env cur_fetchone = None
  /\ fails env cur_exit = None
  /\ fails env conn_close = None
  /\ exists c rest, fetchone_row env = Some (c :: rest).

Definition cache_answers (env : Env) : Prop :=
  fails env import_redis = None
  /\ fails env redis_Redis = None
  /\ fails env r_ping = None
  /\ fails env r_setex = None
  /\ fails env r_get = None
  /\ fails env r_delete = None.

Definition graph_answers (env : Env) : Prop :=
  fails env import_neo4j = None
  /\ fails env GraphDatabase_driver = None
  /\ fails env driver_session = None
  /\ fails env session_run = None
  /\ fails env result_records = None
  /\ fails env session_exit = None
  /\ fails env driver_close = None.

(** The [try] block of the database probe gets through the [with] block:
    everything up to and including the exit of the cursor answers. *)
Definition cursor_block_done (env : Env) : Prop :=
  fails env import_psycopg2 = None
  /\ fails env psycopg2_connect = None
  /\ fails env conn_cursor = None
  /\ fails env cur_execute = None
  /\ fails env cur_fetchone = None
  /\ fails env cur_exit = None
  /\ exists c rest, fetchone_row env = Some (c :: rest).

Definition session_block_done (env : Env) : Prop :=
  fails env import_neo4j = None
  /\ fails env GraphDatabase_driver = None
  /\ fails env driver_session = None
  /\ fails env session_run = None
  /\ fails env result_records = None
  /\ fails env session_exit = None.

(** The call [c] is among the events [evs]. *)
Definition called (c : Dep) (evs : list Event) : bool :=
  existsb (fun ev => match ev with
                     | Called c' => dep_eqb c' c
                     | _ => false
                     end) evs.

(** ** The metrics mapping *)

(** The sampler is imported and its three gauges answer. *)
Definition sampler_answers (env : Env) : Prop :=
  fails env import_psutil = None
  /\ fails env psutil_cpu_percent = None
  /\ fails env psutil_virtual_memory = None
  /\ fails env psutil_disk_usage = None.

(** The five entries that do not depend on the stored results: the two
    readings of the date are the next two of the state. *)
Definition host_entries (env : Env) (st : State) : dict pyval :=
  [("timestamp", PStr (isoformat env (datetime_now_at env (now_reads st))));
   ("uptime_seconds",
    PFloat (datetime_now_at env (S (now_reads st)) - self_start_time st)%Q);
   ("cpu_percent", PFloat (cpu_percent env));
   ("memory_percent", PFloat (memory_percent env));
   ("disk_percent", PFloat (disk_percent env))].

(** One entry per known component that has a stored result, in the order
    database, cache, search, graph. *)
Definition response_entries (health_status : dict SystemHealth)
    : dict pyval :=
  flat_map
    (fun name =>
       match dict_get health_status name with
       | Some h => [((name ++ "_response_ms")%string,
                     PFloat (response_time_ms h))]
       | None => []
       end)
    ["database"; "cache"; "search"; "graph"].

(** The collection stops on the error [e]: the import of the sampler
    raises something that is no [ImportError], or the first gauge that
    fails raises [e]. *)
Definition sampler_raises (env : Env) (e : PyException) : Prop :=
  (fails env import_psutil = Some e /\ is_ImportError e = false)
  \/ (fails env import_psutil = None
      /\ fails env psutil_cpu_percent = Some e)
  \/ (fails env import_psutil = None
      /\ fails env psutil_cpu_percent = None
      /\ fails env psutil_virtual_memory = Some e)
  \/ (fails env import_psutil = None
      /\ fails env psutil_cpu_percent = None
      /\ fails env psutil_virtual_memory = None
      /\ fails env psutil_disk_usage = Some e).

(** A state with stored results under one known and one unknown name. *)
Definition after_two : State :=
  {| self_health_status :=
       [("cache", mkSystemHealth "cache" "healthy" 3 0
                    [("operation", PStr "ping_and_test")]);
        ("queue", mkSystemHealth "queue" "healthy" 9 0 [])];
     self_metrics := [("timestamp", PStr "old")];
     self_start_time := 0;
     time_reads := 0;
     now_reads := 5;
     trace := [] |}.

(** The first gauge of the sampler raises. *)
Definition broken_gauge : Env :=
  failing psutil_cpu_percent (mkExc OSError "cannot read /proc/stat").

(** ** The log of a run *)

(** The line that [run_health_checks] logs for a component. *)
Definition status_line (env : Env) (NAME : string) (h : SystemHealth)
    : Event :=
  Logged "info"
    (NAME ++ ": " ++ status h
     ++ " (" ++ format_2f env (response_time_ms h) ++ "ms)").

Definition is_log (ev : Event) : bool :=
  match ev with
  | Logged _ _ => true
  | _ => false
  end.

(** ** The loops of the demos *)

(** What one turn of the paper loop does to the world. *)
Definition paper_events (paper : Paper.t) : list Event :=
  [Logged "info" ("Processing paper: " ++ Paper.title paper);
   Slept (1 # 10);
   Logged "info" ("Successfully processed paper: " ++ Paper.id paper)].

(** The mapping the search loop builds from [search_results]. *)
Definition record_queries (queries : list string)
    (search_results : dict (list SearchHit.t)) : dict (list SearchHit.t) :=
  fold_left (fun acc query => dict_set acc query (mock_results query))
            queries search_results.

(** ** What a computation does to the world *)

(** Whatever the environment and the state, the events that [m] adds to
    the trace all satisfy [P]. *)
Definition emits_only (P : Event -> bool) {A} (m : M A) : Prop :=
  forall env st,
    exists evs, trace (snd (m env st)) = trace st ++ evs
                /\ forallb P evs = true.

(** The calls that belong to a probe. *)
Definition owns (p : Probe) (c : Dep) : bool :=
  match p, c with
  | Database, (import_psycopg2 | psycopg2_connect | conn_cursor
               | cur_execute | cur_fetchone | cur_exit | conn_close) => true
  | Cache, (import_redis | redis_Redis | r_ping | r_setex | r_get
            | r_delete) => true
  | Search, (import_elasticsearch | elasticsearch_Elasticsearch | es_ping
             | es_cluster_health) => true
  | Graph, (import_neo4j | GraphDatabase_driver | driver_session
            | session_run | result_records | session_exit
            | driver_close) => true
  | _, _ => false
  end.

(** What a probe may do: read the clock and the date, call its own
    dependency. *)
Definition probe_event (p : Probe) (ev : Event) : bool :=
  match ev with
  | TimeRead | NowRead => true
  | Called c => owns p c
  | _ => false
  end.

Definition sampler_call (c : Dep) : bool :=
  match c with
  | import_psutil | psutil_cpu_percent | psutil_virtual_memory
  | psutil_disk_usage => true
  | _ => false
  end.

(** What building the system report may do: what the probes may do, the
    calls of the sampler, and log lines; no sleep, no print, no call on
    the report file. *)
Definition report_event (ev : Event) : bool :=
  match ev with
  | TimeRead | NowRead | Logged _ _ => true
  | Called c =>
      owns Database c || owns Cache c || owns Search c || owns Graph c
      || sampler_call c
  | _ => false
  end.

(** ** The test script *)

(** What a recorded result says, the timestamp left out. *)
Definition summary_of (r : Tester.Result) : string * string * string :=
  (Tester.component r, Tester.status r, Tester.message r).

(** The four checks of a connection. *)
Inductive ConnectionTest : Type :=
| TestDatabase | TestRedis | TestElasticsearch | TestNeo4j.

Definition connection_test (t : ConnectionTest) : Tester.T pyval :=
  match t with
  | TestDatabase => Tester.test_database_connection
  | TestRedis => Tester.test_redis_connection
  | TestElasticsearch => Tester.test_elasticsearch_connection
  | TestNeo4j => Tester.test_neo4j_connection
  end.

Definition connection_component (t : ConnectionTest) : string :=
  match t with
  | TestDatabase => "DATABASE"
  | TestRedis => "CACHE"
  | TestElasticsearch => "SEARCH"
  | TestNeo4j => "GRAPH"
  end.

(** Every call of the check answers, with the value the check needs. *)
Definition connection_ok (t : ConnectionTest) (env : Tester.Env) : Prop :=
  match t with
  | TestDatabase =>
      Tester.fails env Tester.psycopg2_connect = None
      /\ Tester.fails env Tester.conn_cursor = None
      /\ Tester.fails env Tester.cur_execute = None
      /\ Tester.fails env Tester.cur_fetchone = None
      /\ Tester.fails env Tester.cur_exit = None
      /\ Tester.fails env Tester.conn_close = None
      /\ exists c rest, Tester.fetchone_row env = Some (c :: rest)
  | TestRedis =>
      Tester.fails env Tester.redis_Redis = None
      /\ Tester.fails env Tester.r_ping = None
      /\ Tester.fails env Tester.r_setex = None
      /\ Tester.fails env Tester.r_get = None
      /\ Tester.fails env Tester.r_delete = None
  | TestElasticsearch =>
      Tester.fails env Tester.elasticsearch_Elasticsearch = None
      /\ Tester.fails env Tester.es_ping = None
      /\ Tester.ping_result env = true
      /\ Tester.fails env Tester.es_index = None
      /\ Tester.fails env Tester.es_indices_delete = None
  | TestNeo4j =>
      Tester.fails env Tester.GraphDatabase_driver = None
      /\ Tester.fails env Tester.driver_session = None
      /\ Tester.fails env Tester.session_run = None
      /\ Tester.fails env Tester.result_single = None
      /\ Tester.fails env Tester.session_exit = None
      /\ Tester.fails env Tester.driver_close = None
      /\ exists d v, Tester.single_record env = Some d
                     /\ dict_get d "message" = Some v
  end.

(** What the endpoint check records for an endpoint, [None] when the
    request raises something that is no [RequestException]. *)
Definition endpoint_outcome (env : Tester.Env) (endpoint : string)
    : option (string * string * string) :=
  match Tester.fails env (Tester.requests_get endpoint) with
  | Some e =>
      if Tester.is_RequestException env e
      then Some ("API", "INFO",
                 (endpoint ++ " not available (expected for POC)")%string)
      else None
  | None =>
      let code := Tester.status_code env endpoint in
      if (code =? 200)%Z || (code =? 404)%Z
      then Some ("API", "SUCCESS", (endpoint ++ " responsive")%string)
      else Some ("API", "WARNING",
                 (endpoint ++ " returned " ++ Tester.str_of_Z code)%string)
  end.

(** A check that is never counted: what it returns is never true. *)
Definition never_counts (t : Tester.T pyval) : Prop :=
  forall env st v st',
    t env st = (Returned v, st') -> Tester.truthy v = false.



(** The results the endpoint check records over a list of endpoints. *)
Definition endpoint_outcomes (env : Tester.Env) (endpoints : list string)
    : list (string * string * string) :=
  flat_map (fun endpoint =>
              match endpoint_outcome env endpoint with
              | Some outcome => [outcome]
              | None => []
              end) endpoints.

(** The pipeline is imported and built. *)
Definition pipeline_loaded (env : Tester.Env) : Prop :=
  Tester.fails env Tester.import_paperly_pipeline = None
  /\ Tester.fails env Tester.PaperlyPipeline_new = None.



(** * Properties *)

(** ** The roll-up *)

Lemma all_healthy_spec (statuses : list string) :
  forallb (fun status => status =? "healthy") statuses = true
  <-> Forall (fun status => status = "healthy") statuses.
Proof.
  rewrite forallb_forall, Forall_forall.
  split; intros H s Hs; apply String.eqb_eq; auto.
Qed.

Lemma any_unhealthy_spec (statuses : list string) :
  existsb (fun status => status =? "unhealthy") statuses = true
  <-> Exists (fun status => status = "unhealthy") statuses.
Proof.
  rewrite existsb_exists, Exists_exists.
  split; intros [s [Hin Hs]]; exists s; split; auto; apply String.eqb_eq; auto.
Qed.

Lemma all_healthy_not_unhealthy (statuses : list string) :
  Forall (fun status => status = "healthy") statuses ->
  ~ Exists (fun status => status = "unhealthy") statuses.
Proof.
  intros Hall Hex.
  apply Exists_exists in Hex as [s [Hin Hs]].
  rewrite Forall_forall in Hall.
  specialize (Hall s Hin). congruence.
Qed.

Lemma overall_status_degraded_iff (statuses : list string) :
  overall_status statuses = "degraded"
  <-> Exists (fun status => status = "unhealthy") statuses.
Proof.
  unfold overall_status.
  destruct (forallb _ statuses) eqn:Hall.
  - split; [discriminate |].
    intros Hex. apply all_healthy_spec in Hall.
    exfalso. eapply all_healthy_not_unhealthy; eauto.
  - destruct (existsb _ statuses) eqn:Hany.
    + split; [intros _; apply any_unhealthy_spec; assumption | reflexivity].
    + split; [discriminate |].
      intros Hex. apply any_unhealthy_spec in Hex. congruence.
Qed.

Lemma overall_status_two_valued (statuses : list string) :
  overall_status statuses = "healthy" \/ overall_status statuses = "degraded".
Proof.
  unfold overall_status.
  destruct (forallb _ statuses); auto.
  destruct (existsb _ statuses); auto.
Qed.

(** C1: the roll-up answers "healthy" when every status is "healthy",
    "degraded" when some status is "unhealthy", and "healthy" in every
    other case (a list with "degraded" but no "unhealthy", the empty
    list); so it is "healthy" exactly when no status is "unhealthy" and
    "degraded" exactly when one is.  This holds for every list of status
    strings, in particular for those over the three statuses. *)
Theorem overall_status_rule (statuses : list string) :
  (Forall (fun status => status = "healthy") statuses ->
   overall_status statuses = "healthy")
  /\ (Exists (fun status => status = "unhealthy") statuses ->
      overall_status statuses = "degraded")
  /\ (~ Exists (fun status => status = "unhealthy") statuses ->
      overall_status statuses = "healthy")
  /\ (overall_status statuses = "healthy"
      <-> ~ Exists (fun status => status = "unhealthy") statuses)
  /\ (overall_status statuses = "degraded"
      <-> Exists (fun status => status = "unhealthy") statuses).
Proof.
  assert (Hno : ~ Exists (fun status => status = "unhealthy") statuses ->
                overall_status statuses = "healthy").
  { intros Hno.
    destruct (overall_status_two_valued statuses) as [H | H]; [assumption |].
    apply overall_status_degraded_iff in H. contradiction. }
  repeat split.
  - intros Hall. apply Hno. apply all_healthy_not_unhealthy. assumption.
  - apply overall_status_degraded_iff.
  - assumption.
  - intros Hh Hex. apply overall_status_degraded_iff in Hex. congruence.
  - assumption.
  - apply overall_status_degraded_iff.
  - apply overall_status_degraded_iff.
Qed.

Example overall_all_healthy :
  overall_status ["healthy"; "healthy"; "healthy"; "healthy"] = "healthy".
Proof. reflexivity. Qed.

Example overall_one_unhealthy :
  overall_status ["healthy"; "healthy"; "unhealthy"; "healthy"] = "degraded".
Proof. reflexivity. Qed.

Example overall_all_degraded :
  overall_status ["degraded"; "degraded"; "degraded"; "degraded"] = "healthy".
Proof. reflexivity. Qed.

Example overall_empty : overall_status [] = "healthy".
Proof. reflexivity. Qed.

(** ** The summary counts *)

Lemma count_status_cons (name s : string) (statuses : list string) :
  count_status name (s :: statuses)
  = ((if (s =? name)%string then 1 else 0) + count_status name statuses)%nat.
Proof.
  unfold count_status. simpl.
  destruct (s =? name); reflexivity.
Qed.

Lemma count_status_count_occ (name : string) (statuses : list string) :
  count_status name statuses = count_occ string_dec statuses name.
Proof.
  induction statuses as [| s statuses IH]; [reflexivity |].
  rewrite count_status_cons, IH. simpl.
  destruct (string_dec s name) as [-> | Hne].
  - rewrite String.eqb_refl. reflexivity.
  - apply String.eqb_neq in Hne. rewrite Hne. reflexivity.
Qed.

Lemma counts_partition (statuses : list string) :
  Forall valid_status statuses ->
  (count_status "healthy" statuses + count_status "degraded" statuses
   + count_status "unhealthy" statuses = length statuses)%nat.
Proof.
  induction 1 as [| s statuses Hs _ IH]; [reflexivity |].
  rewrite !count_status_cons. simpl length.
  destruct Hs as [-> | [-> | ->]]; simpl; lia.
Qed.

(** C2: in the report built from any mapping of probe results (each with
    one of the three statuses), [total] is the number of entries, the three
    counts add up to [total], and each count is the number of results that
    carry that status. *)
Theorem component_summary_invariant
    (health_status : dict SystemHealth) (system_metrics : dict pyval)
    (stamp : string) :
  Forall (fun h => valid_status (status h)) (values health_status) ->
  Summary.total (Report.component_summary
                   (report health_status system_metrics stamp))
  = length health_status
  /\ (Summary.healthy (Report.component_summary
                         (report health_status system_metrics stamp))
      + Summary.degraded (Report.component_summary
                            (report health_status system_metrics stamp))
      + Summary.unhealthy (Report.component_summary
                             (report health_status system_metrics stamp))
      = Summary.total (Report.component_summary
                         (report health_status system_metrics stamp)))%nat
  /\ Summary.healthy (Report.component_summary
                        (report health_status system_metrics stamp))
     = count_occ string_dec (map status (values health_status)) "healthy"
  /\ Summary.degraded (Report.component_summary
                         (report health_status system_metrics stamp))
     = count_occ string_dec (map status (values health_status)) "degraded"
  /\ Summary.unhealthy (Report.component_summary
                          (report health_status system_metrics stamp))
     = count_occ string_dec (map status (values health_status)) "unhealthy".
Proof.
  intros Hvalid. simpl.
  repeat split.
  - unfold values. rewrite !length_map. reflexivity.
  - apply counts_partition.
    apply Forall_map. exact Hvalid.
  - apply count_status_count_occ.
  - apply count_status_count_occ.
  - apply count_status_count_occ.
Qed.

(** The invariant at a mapping with one result of each status. *)
Lemma component_summary_invariant_witness :
  Forall (fun h => valid_status (status h)) (values one_of_each)
  /\ Summary.total (Report.component_summary (report one_of_each [] "now"))
     = 3%nat
  /\ (Summary.healthy (Report.component_summary (report one_of_each [] "now"))
      + Summary.degraded
          (Report.component_summary (report one_of_each [] "now"))
      + Summary.unhealthy
          (Report.component_summary (report one_of_each [] "now"))
      = Summary.total
          (Report.component_summary (report one_of_each [] "now")))%nat.
Proof.
  assert (Hvalid : Forall (fun h => valid_status (status h))
                     (values one_of_each)).
  { unfold one_of_each, values, valid_status. simpl.
    repeat (apply Forall_cons; [simpl; auto |]). apply Forall_nil. }
  split; [exact Hvalid |].
  destruct (component_summary_invariant one_of_each [] "now" Hvalid)
    as (Htotal & Hsum & _).
  split; [exact Htotal | exact Hsum].
Defined.

(** ** What every probe leaves behind *)

Ltac unfold_probe :=
  cbv [check_database_health check_database_health_try
       check_cache_health check_cache_health_try
       check_search_health check_search_health_try
       check_graph_health check_graph_health_try
       unhealthy_from elapsed_ms first_column subscript
       bind ret raise try_except with_ call call_val
       time_time datetime_now emit
       self_health_status self_metrics self_start_time
       time_reads now_reads trace].

(** One case split on the next answer of the environment. *)
Ltac split_path :=
  match goal with
  | |- context [match fails ?env ?c with _ => _ end] =>
      destruct (fails env c) eqn:?
  | |- context [match fetchone_row ?env with _ => _ end] =>
      destruct (fetchone_row env) as [[|? ?]|] eqn:?
  | |- context [if ping_result ?env then _ else _] =>
      destruct (ping_result env) eqn:?
  | |- context [match dict_get (cluster_health ?env) ?k with _ => _ end] =>
      destruct (dict_get (cluster_health env) k) eqn:?
  | |- context [if in_green_yellow ?v then _ else _] =>
      destruct (in_green_yellow v) eqn:?
  end.

Ltac close_post :=
  do 2 eexists; split; [reflexivity |];
  unfold probe_post, valid_status; cbn;
  repeat split; auto;
  rewrite <- ?app_assoc; cbn;
  eexists; split; [reflexivity | split; reflexivity].

Lemma check_database_health_post (env : Env) (st : State) :
  exists h st', check_database_health env st = (Returned h, st')
                /\ probe_post "database" env st h st'.
Proof.
  destruct st as [hs ms t0 n k tr].
  unfold_probe. repeat split_path; cbn.
  all: close_post.
Qed.

Lemma check_cache_health_post (env : Env) (st : State) :
  exists h st', check_cache_health env st = (Returned h, st')
                /\ probe_post "cache" env st h st'.
Proof.
  destruct st as [hs ms t0 n k tr].
  unfold_probe. repeat split_path; cbn.
  all: close_post.
Qed.

Lemma check_search_health_post (env : Env) (st : State) :
  exists h st', check_search_health env st = (Returned h, st')
                /\ probe_post "search" env st h st'.
Proof.
  destruct st as [hs ms t0 n k tr].
  unfold_probe. repeat split_path; cbn.
  all: close_post.
Qed.

Lemma check_graph_health_post (env : Env) (st : State) :
  exists h st', check_graph_health env st = (Returned h, st')
                /\ probe_post "graph" env st h st'.
Proof.
  destruct st as [hs ms t0 n k tr].
  unfold_probe. repeat split_path; cbn.
  all: close_post.
Qed.

Lemma probe_run_post (p : Probe) (env : Env) (st : State) :
  exists h st', probe_run p env st = (Returned h, st')
                /\ probe_post (probe_name p) env st h st'.
Proof.
  destruct p; simpl.
  - apply check_database_health_post.
  - apply check_cache_health_post.
  - apply check_search_health_post.
  - apply check_graph_health_post.
Qed.

Lemma probe_run_unfold (p : Probe) :
  probe_run p
  = (start_time <- time_time ;;
     try_except (probe_try p start_time)
                (unhealthy_from (probe_name p) start_time)).
Proof. destruct p; reflexivity. Qed.

(** ** The registry *)

(** When the four methods return one after the other, so does the run,
    with their results under the four names. *)
Lemma run_health_checks_on_returned (self : ProbeMethods) (env : Env)
    (st s1 s2 s3 s4 : State) (h1 h2 h3 h4 : SystemHealth) :
  self_check_database_health self env
    (emit (Logged "info" "Starting system health checks...") st)
  = (Returned h1, s1) ->
  self_check_cache_health self env s1 = (Returned h2, s2) ->
  self_check_search_health self env s2 = (Returned h3, s3) ->
  self_check_graph_health self env s3 = (Returned h4, s4) ->
  exists st',
    run_health_checks_on self env st
    = (Returned [("database", h1); ("cache", h2);
                 ("search", h3); ("graph", h4)], st')
    /\ self_health_status st'
       = [("database", h1); ("cache", h2); ("search", h3); ("graph", h4)]
    /\ self_start_time st' = self_start_time s4
    /\ time_reads st' = time_reads s4
    /\ now_reads st' = now_reads s4.
Proof.
  intros H1 H2 H3 H4.
  unfold run_health_checks_on, bind, logger_info.
  rewrite H1, H2, H3, H4. cbn.
  eexists. repeat split.
Qed.

(** The run of the class's own probes, step by step. *)
Lemma run_health_checks_steps (env : Env) (st : State) :
  exists h1 s1 h2 s2 h3 s3 h4 s4 st',
    check_database_health env
      (emit (Logged "info" "Starting system health checks...") st)
    = (Returned h1, s1)
    /\ check_cache_health env s1 = (Returned h2, s2)
    /\ check_search_health env s2 = (Returned h3, s3)
    /\ check_graph_health env s3 = (Returned h4, s4)
    /\ probe_post "database" env
         (emit (Logged "info" "Starting system health checks...") st) h1 s1
    /\ probe_post "cache" env s1 h2 s2
    /\ probe_post "search" env s2 h3 s3
    /\ probe_post "graph" env s3 h4 s4
    /\ run_health_checks env st
       = (Returned [("database", h1); ("cache", h2);
                    ("search", h3); ("graph", h4)], st')
    /\ self_health_status st'
       = [("database", h1); ("cache", h2); ("search", h3); ("graph", h4)]
    /\ self_start_time st' = self_start_time st.
Proof.
  destruct (check_database_health_post env
              (emit (Logged "info" "Starting system health checks...") st))
    as (h1 & s1 & R1 & P1).
  destruct (check_cache_health_post env s1) as (h2 & s2 & R2 & P2).
  destruct (check_search_health_post env s2) as (h3 & s3 & R3 & P3).
  destruct (check_graph_health_post env s3) as (h4 & s4 & R4 & P4).
  destruct (run_health_checks_on_returned PaperlySystemPOC env st
              s1 s2 s3 s4 h1 h2 h3 h4 R1 R2 R3 R4)
    as (st' & Hrun & Hhs & Hstart & _).
  exists h1, s1, h2, s2, h3, s3, h4, s4, st'.
  repeat (split; [assumption |]).
  rewrite Hstart.
  destruct P1 as (_ & _ & _ & _ & _ & _ & E1).
  destruct P2 as (_ & _ & _ & _ & _ & _ & E2).
  destruct P3 as (_ & _ & _ & _ & _ & _ & E3).
  destruct P4 as (_ & _ & _ & _ & _ & _ & E4).
  rewrite E4, E3, E2, E1. reflexivity.
Qed.

(** ** Errors at the probe boundary *)

(** C3, as stated, fails where the error has no text: the probe reports
    "unhealthy", and [details.error] is the empty string. *)
Lemma probe_error_text_can_be_empty :
  exists h st',
    check_database_health_try (time_time_at silent_refusal 0) silent_refusal
      (try_state silent_refusal boot)
    = (Raised (mkExc (OtherError "OperationalError") ""),
       emit (Called psycopg2_connect)
         (emit (Called import_psycopg2) (try_state silent_refusal boot)))
    /\ check_database_health silent_refusal boot = (Returned h, st')
    /\ status h = "unhealthy"
    /\ dict_get (details h) "error" = Some (PStr "").
Proof.
  do 2 eexists. split; [reflexivity |].
  split; [reflexivity |].
  split; reflexivity.
Qed.

(** C3 (amended): whatever error the [try] block of a probe raises, the
    probe returns: its result carries the probe's name, the status
    "unhealthy" and, under [details.error], the text [str(e)] of the error
    (which is empty when the error has no text); and the run of the four
    probes returns a mapping. *)
Theorem probe_catches_every_error (env : Env) (st : State) :
  (forall p : Probe,
     exists h st',
       probe_run p env st = (Returned h, st')
       /\ forall e st1,
            probe_try p (time_time_at env (time_reads st)) env
              (try_state env st) = (Raised e, st1) ->
            component h = probe_name p
            /\ status h = "unhealthy"
            /\ details h = [("error", PStr (exc_str e))]
            /\ dict_get (details h) "error" = Some (PStr (exc_str e)))
  /\ exists d st', run_health_checks env st = (Returned d, st').
Proof.
  split.
  - intros p. rewrite probe_run_unfold.
    unfold bind, try_except, try_state. simpl.
    destruct (probe_try p _ env _) as [[h | e] s1] eqn:Htry.
    + exists h, s1. split; [reflexivity |].
      intros e st1 Hraised. discriminate.
    + do 2 eexists. split; [reflexivity |].
      intros e' st1 Hraised. inversion Hraised; subst.
      repeat split.
  - destruct (run_health_checks_steps env st)
      as (h1 & s1 & h2 & s2 & h3 & s3 & h4 & s4 & st' & H).
    do 2 eexists. apply H.
Qed.

(** ** Latency *)

(** C7, as stated, fails when [time.time()] goes backwards between the two
    readings: the latency is negative. *)
Lemma latency_can_be_negative :
  exists h st',
    check_database_health rewound boot = (Returned h, st')
    /\ (response_time_ms h < 0)%Q.
Proof.
  do 2 eexists. split; [reflexivity |]. reflexivity.
Qed.

Lemma elapsed_nonneg (t0 t1 : Q) :
  (t0 <= t1)%Q -> (0 <= (t1 - t0) * 1000)%Q.
Proof.
  intros Hle.
  apply Qmult_le_0_compat; [| discriminate].
  unfold Qminus. apply (proj1 (Qle_minus_iff t0 t1)). exact Hle.
Qed.

(** C7 (amended): on every way out, success or failure, a probe fills the
    latency with the difference, times 1000, of two readings of
    [time.time()]: the first thing the probe does, before any call to its
    dependency, and the last reading, after which no dependency is called
    (only the date is read); the latency is non-negative whenever the
    clock was not set back between the two readings. *)
Theorem probe_latency (p : Probe) (env : Env) (st : State) :
  exists h st' evs,
    probe_run p env st = (Returned h, st')
    /\ trace st' = trace st ++ evs
    /\ hd_error evs = Some TimeRead
    /\ firstn 2 (rev evs) = [NowRead; TimeRead]
    /\ response_time_ms h
       = ((time_time_at env (time_reads st' - 1)
           - time_time_at env (time_reads st)) * 1000)%Q
    /\ ((time_time_at env (time_reads st)
         <= time_time_at env (time_reads st' - 1))%Q ->
        (0 <= response_time_ms h)%Q).
Proof.
  destruct (probe_run_post p env st)
    as (h & st' & Hrun & _ & _ & (evs & Htr & Hhd & Htl) & Hlat & _).
  exists h, st', evs.
  repeat (split; [assumption |]).
  intros Hle. rewrite Hlat. apply elapsed_nonneg. exact Hle.
Qed.

(** ** Order and keys of the run *)

(** C8: the run calls the four probes one after the other, each from the
    state the one before left, in the order database, cache, search,
    graph; the mapping it returns has exactly these four keys, each once,
    in that order. *)
Theorem run_health_checks_in_order (env : Env) (st : State) :
  exists d st' h1 s1 h2 s2 h3 s3 h4 s4,
    run_health_checks env st = (Returned d, st')
    /\ check_database_health env
         (emit (Logged "info" "Starting system health checks...") st)
       = (Returned h1, s1)
    /\ check_cache_health env s1 = (Returned h2, s2)
    /\ check_search_health env s2 = (Returned h3, s3)
    /\ check_graph_health env s3 = (Returned h4, s4)
    /\ d = [("database", h1); ("cache", h2); ("search", h3); ("graph", h4)]
    /\ keys d = ["database"; "cache"; "search"; "graph"]
    /\ NoDup (keys d).
Proof.
  destruct (run_health_checks_steps env st)
    as (h1 & s1 & h2 & s2 & h3 & s3 & h4 & s4 & st'
        & R1 & R2 & R3 & R4 & _ & _ & _ & _ & Hrun & _).
  exists [("database", h1); ("cache", h2); ("search", h3); ("graph", h4)],
    st', h1, s1, h2, s2, h3, s3, h4, s4.
  repeat (split; [assumption || reflexivity |]).
  simpl.
  repeat constructor; simpl; intuition discriminate.
Qed.

(** C10: in the mapping the run returns, the result stored under a key
    names that key as its component. *)
Theorem run_health_checks_component_is_key (env : Env) (st : State) :
  exists d st',
    run_health_checks env st = (Returned d, st')
    /\ (forall k h, In (k, h) d -> component h = k)
    /\ (forall k h, dict_get d k = Some h -> component h = k).
Proof.
  destruct (run_health_checks_steps env st)
    as (h1 & s1 & h2 & s2 & h3 & s3 & h4 & s4 & st'
        & _ & _ & _ & _ & P1 & P2 & P3 & P4 & Hrun & _).
  destruct P1 as (C1 & _), P2 as (C2 & _), P3 as (C3 & _), P4 as (C4 & _).
  do 2 eexists. split; [exact Hrun |].
  split.
  - intros k h Hin. simpl in Hin.
    destruct Hin as [E | [E | [E | [E | []]]]]; inversion E; subst; assumption.
  - intros k h. cbn [dict_get].
    repeat match goal with
           | |- context [(?a =? k)%string] => destruct (String.eqb_spec a k)
           end;
      intros Hget; try discriminate; inversion Hget; subst; assumption.
Qed.

(** ** A probe that throws past its own handler *)

(** C4, as stated, fails: the run has no handler of its own, so the error
    of the defective probe leaves [run_health_checks], and no mapping is
    returned or stored. *)
Lemma run_health_checks_lets_defect_through :
  fst (run_health_checks_on defective calm boot)
  = Raised (mkExc (OtherError "AttributeError")
                  "'NoneType' object has no attribute 'cursor'")
  /\ self_health_status (snd (run_health_checks_on defective calm boot)) = [].
Proof. split; reflexivity. Qed.

(** C4 (amended): the run has no handler around the probe invocations.
    The first invocation that throws ends the run with that error, in the
    state the probe left, and no mapping is produced; the run returns a
    mapping, of the four results under the four names, exactly when the
    four invocations return. *)
Theorem run_health_checks_propagates (self : ProbeMethods) (env : Env)
    (st : State) :
  match self_check_database_health self env
          (emit (Logged "info" "Starting system health checks...") st) with
  | (Raised e, s1) => run_health_checks_on self env st = (Raised e, s1)
  | (Returned h1, s1) =>
      match self_check_cache_health self env s1 with
      | (Raised e, s2) => run_health_checks_on self env st = (Raised e, s2)
      | (Returned h2, s2) =>
          match self_check_search_health self env s2 with
          | (Raised e, s3) =>
              run_health_checks_on self env st = (Raised e, s3)
          | (Returned h3, s3) =>
              match self_check_graph_health self env s3 with
              | (Raised e, s4) =>
                  run_health_checks_on self env st = (Raised e, s4)
              | (Returned h4, s4) =>
                  exists st',
                    run_health_checks_on self env st
                    = (Returned [("database", h1); ("cache", h2);
                                 ("search", h3); ("graph", h4)], st')
              end
          end
      end
  end.
Proof.
  destruct (self_check_database_health self env _) as [[h1 | e] s1] eqn:H1.
  2: { unfold run_health_checks_on, bind, logger_info.
       rewrite H1. reflexivity. }
  destruct (self_check_cache_health self env s1) as [[h2 | e] s2] eqn:H2.
  2: { unfold run_health_checks_on, bind, logger_info.
       rewrite H1, H2. reflexivity. }
  destruct (self_check_search_health self env s2) as [[h3 | e] s3] eqn:H3.
  2: { unfold run_health_checks_on, bind, logger_info.
       rewrite H1, H2, H3. reflexivity. }
  destruct (self_check_graph_health self env s3) as [[h4 | e] s4] eqn:H4.
  2: { unfold run_health_checks_on, bind, logger_info.
       rewrite H1, H2, H3, H4. reflexivity. }
  destruct (run_health_checks_on_returned self env st s1 s2 s3 s4
              h1 h2 h3 h4 H1 H2 H3 H4) as (st' & Hrun & _).
  exists st'. exact Hrun.
Qed.

(** ** Metrics *)

Lemma dict_contains_set {V} (d : dict V) (k k' : string) (v : V) :
  dict_contains d k' = true -> dict_contains (dict_set d k v) k' = true.
Proof.
  unfold dict_contains.
  induction d as [| [k0 v0] d IH]; simpl; [discriminate |].
  destruct (String.eqb_spec k0 k) as [-> | Hk]; simpl.
  - destruct (k =? k')%string; auto.
  - destruct (k0 =? k')%string; auto.
Qed.

Lemma dict_contains_copy_response_ms (health_status : dict SystemHealth)
    (name k : string) (metrics : dict pyval) :
  dict_contains metrics k = true ->
  dict_contains (copy_response_ms health_status name metrics) k = true.
Proof.
  intros H. unfold copy_response_ms.
  destruct (dict_get health_status name); [| assumption].
  apply dict_contains_set. assumption.
Qed.

(** C5, as stated, fails without the sampler: the mapping holds the
    timestamp and nothing else, so no [uptime_seconds]. *)
Lemma metrics_without_psutil_lack_uptime :
  exists st',
    collect_system_metrics no_psutil boot
    = (Returned [("timestamp", PStr "2024-01-01T00:00:00")], st')
    /\ dict_contains [("timestamp", PStr "2024-01-01T00:00:00")]
         "uptime_seconds" = false.
Proof. eexists. split; reflexivity. Qed.

Ltac unfold_metrics :=
  cbv [collect_system_metrics try_except_ImportError try_then
       bind ret raise call call_val ask
       logger_warning datetime_now get_start_time get_health_status
       set_metrics emit
       self_health_status self_metrics self_start_time
       time_reads now_reads trace].

(** C5 (amended): when the sampler cannot be imported ([ImportError]) the
    collection returns, without an error, a mapping that holds the
    timestamp only: the uptime is left out together with the gauges.  When
    the sampler is there and answers, the mapping holds the timestamp, the
    uptime and the three gauges, whatever the stored results are (none
    included).  A mapping that is returned always holds the timestamp, and
    holds the uptime exactly when the sampler was imported. *)
Theorem collect_system_metrics_keys (env : Env) (st : State) :
  (forall e,
     fails env import_psutil = Some e -> is_ImportError e = true ->
     exists st',
       collect_system_metrics env st
       = (Returned
            [("timestamp",
              PStr (isoformat env (datetime_now_at env (now_reads st))))],
          st'))
  /\ (fails env import_psutil = None ->
      fails env psutil_cpu_percent = None ->
      fails env psutil_virtual_memory = None ->
      fails env psutil_disk_usage = None ->
      exists m st',
        collect_system_metrics env st = (Returned m, st')
        /\ dict_contains m "timestamp" = true
        /\ dict_contains m "uptime_seconds" = true
        /\ dict_contains m "cpu_percent" = true
        /\ dict_contains m "memory_percent" = true
        /\ dict_contains m "disk_percent" = true)
  /\ (forall m st',
        collect_system_metrics env st = (Returned m, st') ->
        dict_contains m "timestamp" = true
        /\ (dict_contains m "uptime_seconds" = true
            <-> fails env import_psutil = None)).
Proof.
  destruct st as [hs ms t0 n k tr].
  split; [| split].
  - intros e He Himp. unfold_metrics.
    rewrite He, Himp. eexists. reflexivity.
  - intros H0 H1 H2 H3. unfold_metrics.
    rewrite H0, H1, H2, H3.
    do 2 eexists. split; [reflexivity |].
    repeat split; repeat apply dict_contains_copy_response_ms; reflexivity.
  - intros m st'. unfold_metrics.
    destruct (fails env import_psutil) as [e |] eqn:H0.
    + destruct (is_ImportError e); intros H; inversion H; subst.
      split; [reflexivity |].
      split; discriminate.
    + destruct (fails env psutil_cpu_percent); [discriminate |].
      destruct (fails env psutil_virtual_memory); [discriminate |].
      destruct (fails env psutil_disk_usage); [discriminate |].
      intros H; inversion H; subst.
      split; [| split; [reflexivity | intros _]];
        repeat apply dict_contains_copy_response_ms; reflexivity.
Qed.

(** ** The search probe *)

Lemma in_green_yellow_spec (v : pyval) :
  in_green_yellow v = true <-> v = PStr "green" \/ v = PStr "yellow".
Proof.
  unfold in_green_yellow, py_eq_str.
  destruct v; simpl; try (split; [discriminate | intros [H | H]; discriminate]).
  rewrite orb_true_iff, !String.eqb_eq.
  split; intros [H | H]; (left + right); congruence.
Qed.

(** C6: the search probe reports "healthy" when the ping succeeds and the
    cluster status is green or yellow, "degraded" when the ping succeeds
    and the cluster status is anything else, and "unhealthy" when the ping
    fails or an error is raised in the [try] block. *)
Theorem check_search_health_verdict (env : Env) (st : State) :
  exists h st',
    check_search_health env st = (Returned h, st')
    /\ (ping_answers env -> ping_result env = true ->
        fails env es_cluster_health = None ->
        forall v, dict_get (cluster_health env) "status" = Some v ->
          (v = PStr "green" \/ v = PStr "yellow" -> status h = "healthy")
          /\ (v <> PStr "green" -> v <> PStr "yellow" ->
              status h = "degraded"))
    /\ (ping_answers env -> ping_result env = false ->
        status h = "unhealthy"
        /\ details h = [("error", PStr "ping_failed")])
    /\ (forall e st1,
          check_search_health_try (time_time_at env (time_reads st)) env
            (try_state env st) = (Raised e, st1) ->
          status h = "unhealthy").
Proof.
  destruct st as [hs ms t0 n k tr].
  unfold ping_answers, try_state.
  unfold_probe.
  repeat split_path; cbn.
  all: do 2 eexists; split; [reflexivity |]; cbn.
  all: split; [| split].
  all: try (intros (? & ? & ?); discriminate).
  all: try (intros; discriminate).
  all: try (intros; reflexivity).
  all: try (intros; split; reflexivity).
  all: intros;
    match goal with H : Some _ = Some _ |- _ => inversion H; subst end.
  all: split; intros; try reflexivity.
  - exfalso.
    match goal with
    | H : in_green_yellow _ = true |- _ =>
        apply in_green_yellow_spec in H; destruct H; contradiction
    end.
  - match goal with
    | H : _ \/ _ |- _ => apply in_green_yellow_spec in H; congruence
    end.
Qed.

(** ** The comprehensive demo *)

Lemma bind_returned {A B} (m : M A) (f : A -> M B) (env : Env)
    (st st' : State) (b : B) :
  bind m f env st = (Returned b, st') ->
  exists a s1, m env st = (Returned a, s1) /\ f a env s1 = (Returned b, st').
Proof.
  unfold bind.
  destruct (m env st) as [[a | e] s1]; [| discriminate].
  intros H. exists a, s1. split; [reflexivity | exact H].
Qed.

Lemma demo_paper_processing_runs (env : Env) (st : State) :
  exists st', demo_paper_processing env st = (Returned two_of_two, st').
Proof. eexists. reflexivity. Qed.

Lemma demo_search_functionality_runs (env : Env) (st : State) :
  exists r st',
    demo_search_functionality env st = (Returned r, st')
    /\ SearchFunctionality.queries_processed r = 4%nat
    /\ SearchFunctionality.total_results r = 12%nat.
Proof.
  do 2 eexists. split; [cbv; reflexivity |].
  split; reflexivity.
Qed.

Lemma collect_system_metrics_returns (env : Env) (st : State) :
  metrics_collected env ->
  exists m st', collect_system_metrics env st = (Returned m, st').
Proof.
  unfold metrics_collected. unfold_metrics.
  destruct (fails env import_psutil) as [e |].
  - intros ->. eauto.
  - intros (-> & -> & ->). eauto.
Qed.

Lemma returns_ret {A} (a : A) env : returns (ret a) env.
Proof. intros st. unfold ret. eauto. Qed.

Lemma returns_bind {A B} (m : M A) (f : A -> M B) env :
  returns m env -> (forall a, returns (f a) env) -> returns (bind m f) env.
Proof.
  intros Hm Hf st. unfold bind.
  destruct (Hm st) as (a & s1 & ->). apply Hf.
Qed.

Lemma returns_logger_info msg env : returns (logger_info msg) env.
Proof. intros st. unfold logger_info. eauto. Qed.

Lemma returns_datetime_now env : returns datetime_now env.
Proof. intros st. unfold datetime_now. eauto. Qed.

Lemma returns_ask {A} (f : Env -> A) env : returns (ask f) env.
Proof. intros st. unfold ask. eauto. Qed.

Lemma returns_call c env : fails env c = None -> returns (call c) env.
Proof. intros H st. unfold call. rewrite H. eauto. Qed.

Lemma returns_with {A} (enter exit_ : M unit) (body : M A) env :
  returns enter env -> returns exit_ env -> returns body env ->
  returns (with_ enter exit_ body) env.
Proof.
  intros He Hx Hb st. unfold with_.
  destruct (He st) as ([] & s1 & ->).
  destruct (Hb s1) as (a & s2 & ->).
  destruct (Hx s2) as ([] & s3 & ->).
  eauto.
Qed.

Lemma returns_run_health_checks env : returns run_health_checks env.
Proof.
  intros st.
  destruct (run_health_checks_steps env st)
    as (h1 & s1 & h2 & s2 & h3 & s3 & h4 & s4 & st' & H).
  do 2 eexists. apply H.
Qed.

Lemma returns_collect_system_metrics env :
  metrics_collected env -> returns collect_system_metrics env.
Proof. intros H st. apply collect_system_metrics_returns. exact H. Qed.

Lemma returns_demo_paper_processing env : returns demo_paper_processing env.
Proof.
  intros st. destruct (demo_paper_processing_runs env st) as (st' & H). eauto.
Qed.

Lemma returns_demo_search_functionality env :
  returns demo_search_functionality env.
Proof.
  intros st.
  destruct (demo_search_functionality_runs env st) as (r & st' & H & _).
  eauto.
Qed.

Create HintDb returns.
#[local] Hint Resolve returns_ret returns_logger_info returns_datetime_now
  returns_ask returns_call returns_with returns_run_health_checks
  returns_collect_system_metrics returns_demo_paper_processing
  returns_demo_search_functionality : returns.

Ltac returns_step :=
  first [ solve [auto with returns] | apply returns_bind; [| intro] ].

Lemma returns_generate_system_report env :
  metrics_collected env -> returns generate_system_report env.
Proof.
  intros Hm.
  unfold generate_system_report, generate_system_report_on.
  fold run_health_checks.
  repeat returns_step.
Qed.

Lemma returns_run_comprehensive_demo env :
  metrics_collected env -> report_written env ->
  returns run_comprehensive_demo env.
Proof.
  intros Hm (Ho & Hd & Hx).
  pose proof (returns_generate_system_report env Hm) as Hg.
  unfold generate_system_report in Hg.
  unfold run_comprehensive_demo, run_comprehensive_demo_on.
  repeat returns_step.
Qed.

(** C9: a report that the comprehensive demo produces says
    [demo_success = True] and [status = "completed"], whatever the probes
    found, and its paper-processing part is 2 processed, 0 failed, rate
    100 over 2 papers; the paper-processing demo gives this part from every
    state; and the demo does produce a report whenever the metrics
    collection and the writing of the file raise nothing. *)
Theorem run_comprehensive_demo_reports_success (env : Env) (st : State) :
  (forall r st',
     run_comprehensive_demo env st = (Returned r, st') ->
     DemoSummary.demo_success (Demo.summary r) = true
     /\ DemoInfo.status (Demo.demo_info r) = "completed"
     /\ Demo.paper_processing r = two_of_two)
  /\ (exists st', demo_paper_processing env st = (Returned two_of_two, st'))
  /\ PaperProcessing.total_papers two_of_two = 2%nat
  /\ PaperProcessing.processed two_of_two = 2%nat
  /\ PaperProcessing.failed two_of_two = 0%nat
  /\ (PaperProcessing.success_rate two_of_two == 100)%Q
  /\ (metrics_collected env -> report_written env ->
      exists r st', run_comprehensive_demo env st = (Returned r, st')).
Proof.
  split.
  - intros r st' H.
    unfold run_comprehensive_demo, run_comprehensive_demo_on in H.
    apply bind_returned in H as (? & s1 & _ & H).
    apply bind_returned in H as (demo_start & s2 & _ & H).
    apply bind_returned in H as (system_report & s3 & _ & H).
    apply bind_returned in H as (processing_demo & s4 & Hpp & H).
    apply bind_returned in H as (search_demo & s5 & _ & H).
    apply bind_returned in H as (demo_end & s6 & _ & H).
    cbv zeta in H.
    apply bind_returned in H as (stamp & s7 & _ & H).
    apply bind_returned in H as (? & s8 & _ & H).
    apply bind_returned in H as (? & s9 & _ & H).
    apply bind_returned in H as (? & s10 & _ & H).
    unfold ret in H. inversion H; subst; clear H. simpl.
    destruct (demo_paper_processing_runs env s3) as (s4' & E).
    rewrite E in Hpp. inversion Hpp; subst.
    repeat split.
  - split; [apply demo_paper_processing_runs |].
    repeat (split; [reflexivity |]).
    intros Hm Hw. apply returns_run_comprehensive_demo; assumption.
Qed.

(** ** The report the method builds *)

Lemma run_health_checks_statuses_valid (env : Env) (st st' : State)
    (d : dict SystemHealth) :
  run_health_checks env st = (Returned d, st') ->
  Forall (fun h => valid_status (status h)) (values d) /\ length d = 4%nat.
Proof.
  intros H.
  destruct (run_health_checks_steps env st)
    as (h1 & s1 & h2 & s2 & h3 & s3 & h4 & s4 & st0
        & _ & _ & _ & _ & P1 & P2 & P3 & P4 & Hrun & _).
  rewrite Hrun in H. inversion H; subst.
  split; [| reflexivity].
  unfold values. simpl.
  repeat (apply Forall_cons;
          [match goal with P : probe_post _ _ _ ?h _ |- valid_status (status ?h)
                 => apply P end |]).
  apply Forall_nil.
Qed.

(** Every report that [generate_system_report] returns counts four
    components, split over the three statuses, and rolls up the statuses
    of its own [health_checks]. *)
Lemma generate_system_report_summary (env : Env) (st st' : State)
    (r : Report.t) :
  generate_system_report env st = (Returned r, st') ->
  Summary.total (Report.component_summary r) = 4%nat
  /\ (Summary.healthy (Report.component_summary r)
      + Summary.degraded (Report.component_summary r)
      + Summary.unhealthy (Report.component_summary r) = 4)%nat
  /\ Report.overall_status r
     = overall_status (map status (values (Report.health_checks r))).
Proof.
  intros H.
  unfold generate_system_report, generate_system_report_on in H.
  fold run_health_checks in H.
  apply bind_returned in H as (d & s1 & Hd & H).
  apply bind_returned in H as (m & s2 & _ & H).
  apply bind_returned in H as (now & s3 & _ & H).
  apply bind_returned in H as (stamp & s4 & _ & H).
  unfold ret in H. inversion H; subst; clear H.
  destruct (run_health_checks_statuses_valid env st s1 d Hd) as (Hv & Hlen).
  simpl.
  assert (Hn : length (map status (values d)) = 4%nat).
  { unfold values. rewrite !length_map. exact Hlen. }
  split; [exact Hn |].
  split; [| reflexivity].
  rewrite <- Hn.
  apply counts_partition. apply Forall_map. exact Hv.
Qed.

(** Three probes answer and the database refuses the connection: the
    report is "degraded" with three healthy and one unhealthy of four. *)
Example report_with_one_failure :
  exists r st',
    generate_system_report silent_refusal boot = (Returned r, st')
    /\ Report.overall_status r = "degraded"
    /\ Report.component_summary r
       = {| Summary.healthy := 3; Summary.degraded := 0;
            Summary.unhealthy := 1; Summary.total := 4 |}.
Proof.
  do 2 eexists. split; [vm_compute; reflexivity |].
  split; reflexivity.
Qed.

(** Without the sampler the report falls back on an uptime of 0. *)
Example report_without_psutil :
  exists r st',
    generate_system_report no_psutil boot = (Returned r, st')
    /\ Report.uptime_seconds r = PInt 0
    /\ Report.overall_status r = "healthy".
Proof.
  do 2 eexists. split; [vm_compute; reflexivity |].
  split; reflexivity.
Qed.

(** A report file that cannot be opened makes the demo raise; [main]
    logs the error and returns [None]. *)
Example main_swallows_write_failure :
  fst (main (failing open_report (mkExc OSError "Permission denied")) boot)
  = Returned None.
Proof. vm_compute. reflexivity. Qed.

(** * Further properties *)

(** ** When a probe is healthy *)

Ltac break_hyps :=
  repeat match goal with
         | H : _ /\ _ |- _ => destruct H
         | H : exists _, _ |- _ => destruct H
         end.

Ltac settle :=
  repeat split; intros; break_hyps;
  try discriminate; try congruence; eauto.

(** X1: the database probe is healthy exactly when its seven calls
    answer and the count query has a row; then [details] is the count.  In
    every other case it is unhealthy and [details] is one error text. *)
Theorem check_database_health_healthy_iff (env : Env) (st : State) :
  exists h st',
    check_database_health env st = (Returned h, st')
    /\ (status h = "healthy" <-> database_answers env)
    /\ (status h = "healthy" ->
        exists c rest, fetchone_row env = Some (c :: rest)
                       /\ details h = [("paper_count", c)])
    /\ (status h <> "healthy" ->
        status h = "unhealthy"
        /\ exists msg, details h = [("error", PStr msg)]).
Proof.
  destruct st as [hs ms t0 n k tr].
  unfold database_answers. unfold_probe.
  repeat split_path; cbn.
  all: do 2 eexists; split; [reflexivity |]; cbn.
  all: settle.
Qed.

(** X2: the cache probe is healthy exactly when its six calls answer;
    otherwise it is unhealthy with one error text. *)
Theorem check_cache_health_healthy_iff (env : Env) (st : State) :
  exists h st',
    check_cache_health env st = (Returned h, st')
    /\ (status h = "healthy" <-> cache_answers env)
    /\ (status h = "healthy" ->
        details h = [("operation", PStr "ping_and_test")])
    /\ (status h <> "healthy" ->
        status h = "unhealthy"
        /\ exists msg, details h = [("error", PStr msg)]).
Proof.
  destruct st as [hs ms t0 n k tr].
  unfold cache_answers. unfold_probe.
  repeat split_path; cbn.
  all: do 2 eexists; split; [reflexivity |]; cbn.
  all: settle.
Qed.

(** X3: the graph probe is healthy exactly when its seven calls answer;
    then [details] holds the rows of the query.  Otherwise it is unhealthy
    with one error text. *)
Theorem check_graph_health_healthy_iff (env : Env) (st : State) :
  exists h st',
    check_graph_health env st = (Returned h, st')
    /\ (status h = "healthy" <-> graph_answers env)
    /\ (status h = "healthy" ->
        details h = [("components", PList (graph_records env))])
    /\ (status h <> "healthy" ->
        status h = "unhealthy"
        /\ exists msg, details h = [("error", PStr msg)]).
Proof.
  destruct st as [hs ms t0 n k tr].
  unfold graph_answers. unfold_probe.
  repeat split_path; cbn.
  all: do 2 eexists; split; [reflexivity |]; cbn.
  all: settle.
Qed.

Ltac settle_all :=
  repeat split; intros; break_hyps;
  try discriminate; try congruence; repeat split; eauto.

Ltac close_with_events :=
  do 3 eexists; split; [reflexivity |];
  split; [rewrite <- ?app_assoc; cbn; reflexivity |]; cbn.

(** X4: a cluster-health answer without the key "status" makes the search
    probe unhealthy, with the text of the [KeyError] as the error, although
    the ping succeeded; and whenever the probe is not unhealthy, [details]
    is the whole cluster-health answer, which has the key. *)
Theorem check_search_health_missing_status (env : Env) (st : State) :
  exists h st',
    check_search_health env st = (Returned h, st')
    /\ (ping_answers env -> ping_result env = true ->
        fails env es_cluster_health = None ->
        dict_get (cluster_health env) "status" = None ->
        status h = "unhealthy"
        /\ details h = [("error", PStr "'status'")])
    /\ (status h <> "unhealthy" ->
        details h = cluster_health env
        /\ exists v, dict_get (cluster_health env) "status" = Some v).
Proof.
  destruct st as [hs ms t0 n k tr].
  unfold ping_answers. unfold_probe.
  repeat split_path; cbn.
  all: do 2 eexists; split; [reflexivity |]; cbn.
  all: settle_all.
Qed.

(** ** What is closed, and what is left open *)

(** X5: in the database probe a cursor that was opened is always left
    through its exit, also when the query raises; but [conn.close()] is
    called only when the whole [with] block went through, so a connection
    that was opened stays unclosed when a later step raises. *)
Theorem check_database_health_closing (env : Env) (st : State) :
  exists h st' evs,
    check_database_health env st = (Returned h, st')
    /\ trace st' = trace st ++ evs
    /\ (called conn_cursor evs = true -> fails env conn_cursor = None ->
        called cur_exit evs = true)
    /\ (called conn_close evs = true <-> cursor_block_done env)
    /\ (called psycopg2_connect evs = true ->
        status h = "unhealthy" -> fails env conn_close = None ->
        called conn_close evs = false).
Proof.
  destruct st as [hs ms t0 n k tr].
  unfold cursor_block_done. unfold_probe.
  repeat split_path; cbn.
  all: close_with_events.
  all: settle_all.
Qed.

(** X6: in the graph probe a session that was opened is always left
    through its exit, but [driver.close()] is called only when the whole
    [with] block went through: a driver that was created stays unclosed
    when a later step raises. *)
Theorem check_graph_health_closing (env : Env) (st : State) :
  exists h st' evs,
    check_graph_health env st = (Returned h, st')
    /\ trace st' = trace st ++ evs
    /\ (called driver_session evs = true -> fails env driver_session = None ->
        called session_exit evs = true)
    /\ (called driver_close evs = true <-> session_block_done env)
    /\ (called GraphDatabase_driver evs = true ->
        status h = "unhealthy" -> fails env driver_close = None ->
        called driver_close evs = false).
Proof.
  destruct st as [hs ms t0 n k tr].
  unfold session_block_done. unfold_probe.
  repeat split_path; cbn.
  all: close_with_events.
  all: settle_all.
Qed.

(** ** The metrics mapping *)

Lemma collect_with_sampler (env : Env) (st : State) :
  sampler_answers env ->
  exists st',
    collect_system_metrics env st
    = (Returned (host_entries env st
                 ++ response_entries (self_health_status st)), st')
    /\ self_metrics st'
       = host_entries env st ++ response_entries (self_health_status st)
    /\ self_health_status st' = self_health_status st
    /\ self_start_time st' = self_start_time st.
Proof.
  intros (H0 & H1 & H2 & H3).
  destruct st as [hs ms t0 n k tr].
  unfold_metrics. rewrite H0, H1, H2, H3.
  unfold response_entries, host_entries, copy_response_ms. cbn [flat_map].
  destruct (dict_get hs "database");
    destruct (dict_get hs "cache");
    destruct (dict_get hs "search");
    destruct (dict_get hs "graph");
    (eexists; split; [vm_compute; reflexivity |]; repeat split).
Qed.

(** X7: with the sampler at hand the collection returns the five host
    entries followed by one [<name>_response_ms] entry, holding the stored
    latency, for each of database, cache, search and graph that has a
    stored result (results under other names are ignored); and it stores
    the same mapping in [self.metrics]. *)
Theorem collect_system_metrics_mapping (env : Env) (st : State) :
  sampler_answers env ->
  exists st',
    collect_system_metrics env st
    = (Returned (host_entries env st
                 ++ response_entries (self_health_status st)), st')
    /\ self_metrics st'
       = host_entries env st ++ response_entries (self_health_status st)
    /\ self_health_status st' = self_health_status st
    /\ self_start_time st' = self_start_time st.
Proof. apply collect_with_sampler. Qed.

(** The mapping of a state with a cache result and a result under a name
    the collection does not know. *)
Lemma collect_system_metrics_mapping_witness :
  sampler_answers calm
  /\ exists st',
       collect_system_metrics calm after_two
       = (Returned (host_entries calm after_two
                    ++ [("cache_response_ms", PFloat 3)]), st').
Proof.
  assert (H : sampler_answers calm) by (repeat split).
  split; [exact H |].
  destruct (collect_system_metrics_mapping calm after_two H)
    as (st' & Hrun & _).
  exists st'. exact Hrun.
Defined.

Lemma collect_without_sampler (env : Env) (st : State)
    (e : PyException) :
  fails env import_psutil = Some e -> is_ImportError e = true ->
  exists m st',
    collect_system_metrics env st = (Returned m, st')
    /\ trace st'
       = trace st
         ++ [Called import_psutil;
             Logged "warning" "psutil not available, skipping system metrics";
             NowRead]
    /\ self_metrics st' = self_metrics st
    /\ self_health_status st' = self_health_status st.
Proof.
  intros He Himp.
  destruct st as [hs ms t0 n k tr].
  unfold_metrics. rewrite He, Himp.
  do 2 eexists. split; [reflexivity |].
  cbn. rewrite <- !app_assoc. repeat split.
Qed.

(** X8: when the sampler cannot be imported, the collection logs a
    warning, reads the date once and calls nothing else; [self.metrics]
    keeps the mapping of an earlier collection. *)
Theorem collect_system_metrics_fallback (env : Env) (st : State)
    (e : PyException) :
  fails env import_psutil = Some e -> is_ImportError e = true ->
  exists m st',
    collect_system_metrics env st = (Returned m, st')
    /\ trace st'
       = trace st
         ++ [Called import_psutil;
             Logged "warning" "psutil not available, skipping system metrics";
             NowRead]
    /\ self_metrics st' = self_metrics st
    /\ self_health_status st' = self_health_status st.
Proof. apply collect_without_sampler. Qed.

Lemma collect_system_metrics_fallback_witness :
  exists m st',
    collect_system_metrics no_psutil after_two = (Returned m, st')
    /\ self_metrics st' = [("timestamp", PStr "old")].
Proof.
  destruct (collect_system_metrics_fallback no_psutil after_two
              (mkExc ModuleNotFoundError "No module named 'psutil'")
              eq_refl eq_refl)
    as (m & st' & Hrun & _ & Hm & _).
  exists m, st'. split; [exact Hrun | exact Hm].
Defined.

Lemma collect_sampler_error (env : Env) (st : State)
    (e : PyException) :
  sampler_raises env e ->
  exists st',
    collect_system_metrics env st = (Raised e, st')
    /\ self_metrics st' = self_metrics st
    /\ self_health_status st' = self_health_status st.
Proof.
  destruct st as [hs ms t0 n k tr].
  unfold sampler_raises. unfold_metrics.
  intros [(H0 & Hi) | [(H0 & H1) | [(H0 & H1 & H2) | (H0 & H1 & H2 & H3)]]].
  - rewrite H0, Hi. eexists. repeat split.
  - rewrite H0, H1. eexists. repeat split.
  - rewrite H0, H1, H2. eexists. repeat split.
  - rewrite H0, H1, H2, H3. eexists. repeat split.
Qed.

(** X9: an import of the sampler that raises something else than an
    [ImportError], and a gauge that raises, are not caught: the collection
    raises that error and [self.metrics] is not touched. *)
Theorem collect_system_metrics_raises (env : Env) (st : State)
    (e : PyException) :
  sampler_raises env e ->
  exists st',
    collect_system_metrics env st = (Raised e, st')
    /\ self_metrics st' = self_metrics st
    /\ self_health_status st' = self_health_status st.
Proof. apply collect_sampler_error. Qed.

Lemma collect_system_metrics_raises_witness :
  sampler_raises broken_gauge (mkExc OSError "cannot read /proc/stat")
  /\ exists st',
       collect_system_metrics broken_gauge after_two
       = (Raised (mkExc OSError "cannot read /proc/stat"), st').
Proof.
  assert (H : sampler_raises broken_gauge
                (mkExc OSError "cannot read /proc/stat")).
  { right. left. split; reflexivity. }
  split; [exact H |].
  destruct (collect_system_metrics_raises broken_gauge after_two _ H)
    as (st' & Hrun & _).
  exists st'. exact Hrun.
Defined.

(** ** The report and the stored fields *)

(** The state a run of the probes ends in, from the state the last probe
    left. *)
Lemma run_health_checks_on_final (self : ProbeMethods) (env : Env)
    (st s1 s2 s3 s4 : State) (h1 h2 h3 h4 : SystemHealth) :
  self_check_database_health self env
    (emit (Logged "info" "Starting system health checks...") st)
  = (Returned h1, s1) ->
  self_check_cache_health self env s1 = (Returned h2, s2) ->
  self_check_search_health self env s2 = (Returned h3, s3) ->
  self_check_graph_health self env s3 = (Returned h4, s4) ->
  exists st',
    run_health_checks_on self env st
    = (Returned [("database", h1); ("cache", h2);
                 ("search", h3); ("graph", h4)], st')
    /\ self_metrics st' = self_metrics s4
    /\ trace st'
       = trace s4 ++ [status_line env "DATABASE" h1;
                      status_line env "CACHE" h2;
                      status_line env "SEARCH" h3;
                      status_line env "GRAPH" h4].
Proof.
  intros H1 H2 H3 H4.
  unfold run_health_checks_on, bind, logger_info.
  rewrite H1, H2, H3, H4. cbn.
  eexists. split; [reflexivity |]. cbn.
  rewrite <- !app_assoc. split; reflexivity.
Qed.

(** A run of the class's probes stores its mapping and leaves the stored
    metrics and the start time alone. *)
Lemma run_health_checks_stores (env : Env) (st : State) :
  exists d st',
    run_health_checks env st = (Returned d, st')
    /\ keys d = ["database"; "cache"; "search"; "graph"]
    /\ (forall p : Probe, exists h,
          dict_get d (probe_name p) = Some h
          /\ dict_get (response_entries d)
               (probe_name p ++ "_response_ms")
             = Some (PFloat (response_time_ms h)))
    /\ self_health_status st' = d
    /\ self_metrics st' = self_metrics st
    /\ self_start_time st' = self_start_time st.
Proof.
  destruct (run_health_checks_steps env st)
    as (h1 & s1 & h2 & s2 & h3 & s3 & h4 & s4 & st0
        & R1 & R2 & R3 & R4 & P1 & P2 & P3 & P4 & Hrun & Hhs & Hstart).
  destruct (run_health_checks_on_final PaperlySystemPOC env st
              s1 s2 s3 s4 h1 h2 h3 h4 R1 R2 R3 R4)
    as (st' & Hrun' & Hm & _).
  fold run_health_checks in Hrun'.
  rewrite Hrun in Hrun'. inversion Hrun'; subst st0.
  do 2 eexists. split; [exact Hrun |].
  split; [reflexivity |].
  split.
  { intros p. destruct p; eexists; split; reflexivity. }
  split; [exact Hhs |].
  split; [| exact Hstart].
  rewrite Hm.
  destruct P1 as (_ & _ & _ & _ & _ & E1 & _).
  destruct P2 as (_ & _ & _ & _ & _ & E2 & _).
  destruct P3 as (_ & _ & _ & _ & _ & E3 & _).
  destruct P4 as (_ & _ & _ & _ & _ & E4 & _).
  rewrite E4, E3, E2, E1. reflexivity.
Qed.

Ltac unfold_report :=
  unfold generate_system_report, generate_system_report_on, bind;
  fold run_health_checks.

(** X10: with the sampler at hand, a report is returned in which every
    component's [<name>_response_ms] metric is the latency of that
    component's result in the same report, and the uptime of the report is
    the one of the metrics; the object stores both mappings. *)
Theorem generate_system_report_with_sampler (env : Env) (st : State) :
  sampler_answers env ->
  exists r st',
    generate_system_report env st = (Returned r, st')
    /\ (forall p : Probe, exists h,
          dict_get (Report.health_checks r) (probe_name p) = Some h
          /\ dict_get (Report.system_metrics r)
               (probe_name p ++ "_response_ms")
             = Some (PFloat (response_time_ms h)))
    /\ (exists up,
          Report.uptime_seconds r = PFloat up
          /\ dict_get (Report.system_metrics r) "uptime_seconds"
             = Some (PFloat up))
    /\ self_health_status st' = Report.health_checks r
    /\ self_metrics st' = Report.system_metrics r.
Proof.
  intros Hs.
  destruct (run_health_checks_stores env st)
    as (d & s1 & Hrun & _ & Hd & Hhs & _).
  destruct (collect_with_sampler env s1 Hs) as (s2 & Hc & Hm & Hhs2 & _).
  unfold_report. rewrite Hrun, Hc. cbn.
  do 2 eexists. split; [reflexivity |]. cbn.
  rewrite Hhs in *.
  split.
  { intros p. destruct (Hd p) as (h & Hh & Hr).
    exists h. split; [exact Hh |].
    destruct p; exact Hr. }
  split; [eexists; split; reflexivity |].
  split; assumption.
Qed.

Lemma generate_system_report_with_sampler_witness :
  sampler_answers calm
  /\ exists r st', generate_system_report calm boot = (Returned r, st').
Proof.
  assert (H : sampler_answers calm) by (repeat split).
  split; [exact H |].
  destruct (generate_system_report_with_sampler calm boot H)
    as (r & st' & Hrun & _).
  exists r, st'. exact Hrun.
Defined.

(** X11: without the sampler a report is still returned, with the four
    results; its metrics hold the timestamp only and its uptime is the
    default 0.  The results are stored; the stored metrics stay those of
    an earlier collection. *)
Theorem generate_system_report_without_sampler (env : Env) (st : State)
    (e : PyException) :
  fails env import_psutil = Some e -> is_ImportError e = true ->
  exists r st',
    generate_system_report env st = (Returned r, st')
    /\ keys (Report.health_checks r)
       = ["database"; "cache"; "search"; "graph"]
    /\ keys (Report.system_metrics r) = ["timestamp"]
    /\ Report.uptime_seconds r = PInt 0
    /\ self_health_status st' = Report.health_checks r
    /\ self_metrics st' = self_metrics st.
Proof.
  intros He Himp.
  destruct (run_health_checks_stores env st)
    as (d & s1 & Hrun & Hkeys & _ & Hhs & Hm & _).
  destruct s1 as [hs1 ms1 t1 n1 k1 tr1]. simpl in Hhs, Hm. subst hs1 ms1.
  unfold_report. rewrite Hrun.
  unfold_metrics. rewrite He, Himp. cbn.
  do 2 eexists. split; [reflexivity |]. cbn.
  repeat split. exact Hkeys.
Qed.

Lemma generate_system_report_without_sampler_witness :
  exists r st',
    generate_system_report no_psutil boot = (Returned r, st')
    /\ Report.uptime_seconds r = PInt 0.
Proof.
  destruct (generate_system_report_without_sampler no_psutil boot
              (mkExc ModuleNotFoundError "No module named 'psutil'")
              eq_refl eq_refl)
    as (r & st' & Hrun & _ & _ & Hup & _).
  exists r, st'. split; [exact Hrun | exact Hup].
Defined.

Lemma generate_sampler_error (env : Env) (st : State)
    (e : PyException) :
  sampler_raises env e ->
  exists st',
    generate_system_report env st = (Raised e, st')
    /\ keys (self_health_status st')
       = ["database"; "cache"; "search"; "graph"]
    /\ self_metrics st' = self_metrics st.
Proof.
  intros He.
  destruct (run_health_checks_stores env st)
    as (d & s1 & Hrun & Hkeys & _ & Hhs & Hm & _).
  destruct (collect_sampler_error env s1 e He) as (s2 & Hc & Hm2 & Hhs2).
  unfold_report. rewrite Hrun, Hc.
  eexists. split; [reflexivity |].
  rewrite Hhs2, Hhs, Hm2, Hm. split; [exact Hkeys | reflexivity].
Qed.

(** X12: an error of the sampler that the collection does not catch
    leaves [generate_system_report] as it is: no report is returned,
    although the four probes have run and their results are stored. *)
Theorem generate_system_report_sampler_error (env : Env) (st : State)
    (e : PyException) :
  sampler_raises env e ->
  exists st',
    generate_system_report env st = (Raised e, st')
    /\ keys (self_health_status st')
       = ["database"; "cache"; "search"; "graph"]
    /\ self_metrics st' = self_metrics st.
Proof. apply generate_sampler_error. Qed.

Lemma generate_system_report_sampler_error_witness :
  sampler_raises broken_gauge (mkExc OSError "cannot read /proc/stat")
  /\ exists st',
       generate_system_report broken_gauge boot
       = (Raised (mkExc OSError "cannot read /proc/stat"), st').
Proof.
  assert (H : sampler_raises broken_gauge
                (mkExc OSError "cannot read /proc/stat")).
  { right. left. split; reflexivity. }
  split; [exact H |].
  destruct (generate_system_report_sampler_error broken_gauge boot _ H)
    as (st' & Hrun & _).
  exists st'. exact Hrun.
Defined.

(** X13: a run of the probes logs, after the last probe has returned and
    nothing else in between, one line per component in the order database,
    cache, search, graph: the name in upper case, the status and the
    latency with two decimals. *)
Theorem run_health_checks_log_lines (env : Env) (st : State) :
  exists h1 s1 h2 s2 h3 s3 h4 s4 st',
    check_database_health env
      (emit (Logged "info" "Starting system health checks...") st)
    = (Returned h1, s1)
    /\ check_cache_health env s1 = (Returned h2, s2)
    /\ check_search_health env s2 = (Returned h3, s3)
    /\ check_graph_health env s3 = (Returned h4, s4)
    /\ run_health_checks env st
       = (Returned [("database", h1); ("cache", h2);
                    ("search", h3); ("graph", h4)], st')
    /\ trace st'
       = trace s4 ++ [status_line env "DATABASE" h1;
                      status_line env "CACHE" h2;
                      status_line env "SEARCH" h3;
                      status_line env "GRAPH" h4].
Proof.
  destruct (run_health_checks_steps env st)
    as (h1 & s1 & h2 & s2 & h3 & s3 & h4 & s4 & st0
        & R1 & R2 & R3 & R4 & _).
  destruct (run_health_checks_on_final PaperlySystemPOC env st
              s1 s2 s3 s4 h1 h2 h3 h4 R1 R2 R3 R4)
    as (st' & Hrun & _ & Htr).
  exists h1, s1, h2, s2, h3, s3, h4, s4, st'.
  repeat (split; [assumption |]). exact Htr.
Qed.

(** ** The loops of the demos *)

(** X14: the paper loop never counts a failure: over any list of papers
    it adds the number of papers to [processed_count], leaves
    [failed_count] as it was and logs no error; each paper gives a log
    line, a sleep of a tenth of a second and a second log line. *)
Theorem process_papers_never_fails (papers : list Paper.t)
    (processed failed : nat) (env : Env) (st : State) :
  exists st',
    process_papers papers (processed, failed) env st
    = (Returned ((processed + length papers)%nat, failed), st')
    /\ trace st' = trace st ++ flat_map paper_events papers.
Proof.
  revert processed failed env st.
  induction papers as [| paper rest IH]; intros processed failed env st.
  - exists st. cbn. rewrite Nat.add_0_r, app_nil_r. split; reflexivity.
  - cbn [process_papers]. unfold bind at 1.
    unfold process_paper, try_then, bind, logger_info, time_sleep, ret.
    cbn [fst snd].
    destruct (IH (processed + 1)%nat failed env
                (emit (Logged "info"
                         ("Successfully processed paper: " ++ Paper.id paper))
                   (emit (Slept (1 # 10))
                      (emit (Logged "info"
                               ("Processing paper: " ++ Paper.title paper))
                         st))))
      as (st' & Hrun & Htr).
    exists st'. split.
    + rewrite Hrun. cbn [length]. f_equal. f_equal. f_equal. lia.
    + rewrite Htr. cbn. rewrite <- !app_assoc. reflexivity.
Qed.

(** *** The mapping as a dictionary *)

Lemma dict_get_set_same {V} (d : dict V) (k : string) (v : V) :
  dict_get (dict_set d k v) k = Some v.
Proof.
  induction d as [| [k0 v0] d IH]; cbn [dict_set dict_get].
  - rewrite String.eqb_refl. reflexivity.
  - destruct (String.eqb_spec k0 k) as [-> | Hne]; cbn [dict_get].
    + rewrite String.eqb_refl. reflexivity.
    + apply String.eqb_neq in Hne. rewrite Hne. exact IH.
Qed.

Lemma dict_get_set_other {V} (d : dict V) (k k' : string) (v : V) :
  k <> k' -> dict_get (dict_set d k v) k' = dict_get d k'.
Proof.
  intros Hkk.
  induction d as [| [k0 v0] d IH]; cbn [dict_set dict_get].
  - apply String.eqb_neq in Hkk. rewrite Hkk. reflexivity.
  - destruct (String.eqb_spec k0 k) as [-> | Hne]; cbn [dict_get].
    + apply String.eqb_neq in Hkk. rewrite Hkk. reflexivity.
    + rewrite IH. reflexivity.
Qed.

Lemma dict_get_In_keys {V} (d : dict V) (k : string) :
  In k (keys d) <-> exists v, dict_get d k = Some v.
Proof.
  unfold keys.
  induction d as [| [k0 v0] d IH]; cbn [map fst In dict_get].
  - split; [intros [] | intros [v Hv]; discriminate].
  - destruct (String.eqb_spec k0 k) as [-> | Hne].
    + split; [eauto | auto].
    + rewrite <- IH. split; [intros [H | H]; [contradiction | exact H] | auto].
Qed.

Lemma keys_dict_set {V} (d : dict V) (k : string) (v : V) :
  keys (dict_set d k v)
  = if dict_contains d k then keys d else keys d ++ [k].
Proof.
  unfold keys, dict_contains.
  induction d as [| [k0 v0] d IH]; cbn [dict_set dict_get map fst app].
  - reflexivity.
  - destruct (String.eqb_spec k0 k) as [-> | Hne]; cbn [map fst].
    + reflexivity.
    + rewrite IH. destruct (dict_get d k); reflexivity.
Qed.

Lemma dict_contains_In {V} (d : dict V) (k : string) :
  dict_contains d k = true <-> In k (keys d).
Proof.
  rewrite dict_get_In_keys. unfold dict_contains.
  destruct (dict_get d k) as [v |].
  - split; eauto.
  - split; [discriminate | intros [v Hv]; discriminate].
Qed.

Lemma search_queries_run (queries : list string) :
  forall (search_results : dict (list SearchHit.t)) (env : Env) (st : State),
  exists st',
    search_queries queries search_results env st
    = (Returned (record_queries queries search_results), st').
Proof.
  induction queries as [| query rest IH]; intros d env st.
  - exists st. reflexivity.
  - cbn [search_queries record_queries fold_left].
    unfold bind, logger_info, time_sleep. cbn [fst snd].
    apply IH.
Qed.

Lemma record_queries_keys (queries : list string) :
  forall (d : dict (list SearchHit.t)) (q : string),
    In q (keys (record_queries queries d)) <-> In q (keys d) \/ In q queries.
Proof.
  induction queries as [| query rest IH]; intros d q;
    cbn [record_queries fold_left In].
  - tauto.
  - fold (record_queries rest (dict_set d query (mock_results query))).
    rewrite IH, keys_dict_set.
    destruct (dict_contains d query) eqn:Hc.
    + apply dict_contains_In in Hc.
      split; [tauto |].
      intros [H | [<- | H]]; tauto.
    + rewrite in_app_iff. cbn [In]. tauto.
Qed.

Lemma record_queries_NoDup (queries : list string) :
  forall d : dict (list SearchHit.t),
    NoDup (keys d) -> NoDup (keys (record_queries queries d)).
Proof.
  induction queries as [| query rest IH]; intros d Hd;
    cbn [record_queries fold_left]; [exact Hd |].
  apply IH. rewrite keys_dict_set.
  destruct (dict_contains d query) eqn:Hc; [exact Hd |].
  apply NoDup_app; [exact Hd | repeat constructor; intros [] |].
  intros k Hk [<- | []].
  apply dict_contains_In in Hk. congruence.
Qed.

Lemma record_queries_get (queries : list string) :
  forall (d : dict (list SearchHit.t)) (q : string),
    dict_get (record_queries queries d) q
    = if in_dec string_dec q queries then Some (mock_results q)
      else dict_get d q.
Proof.
  induction queries as [| query rest IH]; intros d q;
    cbn [record_queries fold_left]; [reflexivity |].
  fold (record_queries rest (dict_set d query (mock_results query))).
  rewrite IH.
  destruct (in_dec string_dec q rest) as [Hin | Hnin];
    destruct (in_dec string_dec q (query :: rest)) as [Hin' | Hnin'];
    cbn [In] in *; try tauto.
  - destruct Hin' as [-> | H]; [| contradiction].
    apply dict_get_set_same.
  - apply dict_get_set_other. tauto.
Qed.

Lemma record_queries_distinct (queries : list string) :
  forall d : dict (list SearchHit.t),
    NoDup (keys d ++ queries) ->
    keys (record_queries queries d) = keys d ++ queries.
Proof.
  induction queries as [| query rest IH]; intros d Hd;
    cbn [record_queries fold_left].
  - rewrite app_nil_r. reflexivity.
  - fold (record_queries rest (dict_set d query (mock_results query))).
    assert (Hc : dict_contains d query = false).
    { destruct (dict_contains d query) eqn:Hc; [| reflexivity].
      apply dict_contains_In in Hc.
      apply NoDup_remove_2 in Hd. exfalso. apply Hd.
      apply in_or_app. left. exact Hc. }
    rewrite IH; rewrite keys_dict_set, Hc, <- app_assoc; [reflexivity |].
    exact Hd.
Qed.

Lemma three_hits_each (d : dict (list SearchHit.t)) :
  (forall q hits, dict_get d q = Some hits -> length hits = 3%nat) ->
  NoDup (keys d) ->
  list_sum (map (fun r => length r) (values d)) = (3 * length d)%nat.
Proof.
  unfold keys, values.
  induction d as [| [k hits] d IH]; intros Hall Hnd; [reflexivity |].
  cbn [map snd fst list_sum length] in *.
  inversion Hnd as [| ? ? Hk Hnd']; subst.
  rewrite (Hall k hits).
  2: { cbn [dict_get]. rewrite String.eqb_refl. reflexivity. }
  match goal with
  | |- list_sum (?a :: ?l) = _ =>
      change (list_sum (a :: l)) with (a + list_sum l)%nat
  end.
  rewrite IH; [lia | | exact Hnd'].
  intros q hits' Hq. apply (Hall q hits').
  cbn [dict_get].
  destruct (String.eqb_spec k q) as [-> | Hne]; [| exact Hq].
  exfalso. apply Hk.
  apply (proj2 (dict_get_In_keys d q)). eauto.
Qed.

(** X15: over any list of queries the search loop, started on an empty
    mapping, ends with one entry per distinct query, each holding the three
    mock results of that query, so the number of results is three times
    the number of distinct queries; a query that comes twice is recorded
    once.  With no repetition the keys are the queries, in order. *)
Theorem search_queries_results (queries : list string) (env : Env)
    (st : State) :
  exists d st',
    search_queries queries [] env st = (Returned d, st')
    /\ NoDup (keys d)
    /\ (forall q, In q (keys d) <-> In q queries)
    /\ (forall q, In q queries -> dict_get d q = Some (mock_results q))
    /\ list_sum (map (fun r => length r) (values d)) = (3 * length d)%nat
    /\ (NoDup queries -> keys d = queries).
Proof.
  destruct (search_queries_run queries [] env st) as (st' & Hrun).
  exists (record_queries queries []), st'.
  split; [exact Hrun |].
  assert (Hnd : NoDup (keys (record_queries queries []))).
  { apply record_queries_NoDup. constructor. }
  split; [exact Hnd |].
  split.
  { intros q. rewrite record_queries_keys. cbn. tauto. }
  split.
  { intros q Hq. rewrite record_queries_get.
    destruct (in_dec string_dec q queries); [reflexivity | contradiction]. }
  split.
  { apply three_hits_each; [| exact Hnd].
    intros q hits. rewrite record_queries_get.
    destruct (in_dec string_dec q queries); [| discriminate].
    intros H. inversion H. reflexivity. }
  intros H. apply (record_queries_distinct queries []). exact H.
Qed.

(** ** When the demo gives a report *)

Lemma collect_system_metrics_returned (env : Env) (st st' : State)
    (m : dict pyval) :
  collect_system_metrics env st = (Returned m, st') -> metrics_collected env.
Proof.
  unfold metrics_collected. unfold_metrics.
  destruct (fails env import_psutil) as [e |].
  - destruct (is_ImportError e); [reflexivity | discriminate].
  - destruct (fails env psutil_cpu_percent); [discriminate |].
    destruct (fails env psutil_virtual_memory); [discriminate |].
    destruct (fails env psutil_disk_usage); [discriminate |].
    repeat split.
Qed.

Lemma write_report_returned (env : Env) (st st' : State) (a : unit) :
  with_ (call open_report) (call file_exit) (call json_dump) env st
  = (Returned a, st') ->
  report_written env.
Proof.
  unfold report_written, with_, call.
  destruct (fails env open_report); [discriminate |].
  destruct (fails env json_dump);
    destruct (fails env file_exit); try discriminate.
  repeat split.
Qed.

Lemma run_comprehensive_demo_returned (env : Env) (st st' : State)
    (r : Demo.t) :
  run_comprehensive_demo env st = (Returned r, st') ->
  metrics_collected env /\ report_written env.
Proof.
  intros H.
  unfold run_comprehensive_demo, run_comprehensive_demo_on in H.
  apply bind_returned in H as (? & s1 & _ & H).
  apply bind_returned in H as (demo_start & s2 & _ & H).
  apply bind_returned in H as (system_report & s3 & Hgen & H).
  apply bind_returned in H as (processing_demo & s4 & _ & H).
  apply bind_returned in H as (search_demo & s5 & _ & H).
  apply bind_returned in H as (demo_end & s6 & _ & H).
  cbv zeta in H.
  apply bind_returned in H as (stamp & s7 & _ & H).
  apply bind_returned in H as (? & s8 & Hw & _).
  unfold generate_system_report_on in Hgen.
  apply bind_returned in Hgen as (d & t1 & _ & Hgen).
  apply bind_returned in Hgen as (m & t2 & Hc & _).
  split.
  - eapply collect_system_metrics_returned. exact Hc.
  - eapply write_report_returned. exact Hw.
Qed.

(** X16: the comprehensive demo returns its report exactly when the
    metrics collection raises nothing and the report file is opened,
    written and closed without an error; the state of the four
    dependencies does not matter.  In every other case it raises and the
    report it has built is lost. *)
Theorem run_comprehensive_demo_returns_iff (env : Env) (st : State) :
  ((exists r st', run_comprehensive_demo env st = (Returned r, st'))
   <-> metrics_collected env /\ report_written env)
  /\ ((exists e st', run_comprehensive_demo env st = (Raised e, st'))
      <-> ~ (metrics_collected env /\ report_written env)).
Proof.
  assert (Hiff : (exists r st',
                    run_comprehensive_demo env st = (Returned r, st'))
                 <-> metrics_collected env /\ report_written env).
  { split.
    - intros (r & st' & H). eapply run_comprehensive_demo_returned. exact H.
    - intros (Hm & Hw). apply returns_run_comprehensive_demo; assumption. }
  split; [exact Hiff |].
  destruct (run_comprehensive_demo env st) as [[r | e] st'] eqn:Hrun.
  - split.
    + intros (e & s & H). discriminate.
    + intros Hn. exfalso. apply Hn. apply Hiff. eauto.
  - split.
    + intros _ Hc. apply Hiff in Hc as (r & s & H). discriminate.
    + intros _. eauto.
Qed.



(** ** What a computation does to the world *)

Section EmitsOnly.
Variable P : Event -> bool.

Lemma emits_only_ret {A} (a : A) : emits_only P (ret a).
Proof. intros env st. exists []. rewrite app_nil_r. split; reflexivity. Qed.

Lemma emits_only_raise {A} (e : PyException) : emits_only P (@raise A e).
Proof. intros env st. exists []. rewrite app_nil_r. split; reflexivity. Qed.

Lemma emits_only_bind {A B} (m : M A) (f : A -> M B) :
  emits_only P m -> (forall a, emits_only P (f a)) ->
  emits_only P (bind m f).
Proof.
  intros Hm Hf env st. unfold bind.
  destruct (Hm env st) as (evs & Htr & Hall).
  destruct (m env st) as [[a | e] s1]; cbn [snd] in *.
  - destruct (Hf a env s1) as (evs' & Htr' & Hall').
    exists (evs ++ evs'). rewrite Htr', Htr, app_assoc, forallb_app, Hall.
    split; [reflexivity | exact Hall'].
  - exists evs. split; assumption.
Qed.

Lemma emits_only_try_then {A B} (body : M A)
    (handler : PyException -> M B) (rest : A -> M B) :
  emits_only P body -> (forall e, emits_only P (handler e)) ->
  (forall a, emits_only P (rest a)) ->
  emits_only P (try_then body handler rest).
Proof.
  intros Hb Hh Hr env st. unfold try_then.
  destruct (Hb env st) as (evs & Htr & Hall).
  destruct (body env st) as [[a | e] s1]; cbn [snd] in *.
  - destruct (Hr a env s1) as (evs' & Htr' & Hall').
    exists (evs ++ evs'). rewrite Htr', Htr, app_assoc, forallb_app, Hall.
    split; [reflexivity | exact Hall'].
  - destruct (Hh e env s1) as (evs' & Htr' & Hall').
    exists (evs ++ evs'). rewrite Htr', Htr, app_assoc, forallb_app, Hall.
    split; [reflexivity | exact Hall'].
Qed.

Lemma emits_only_try_except {A} (body : M A)
    (handler : PyException -> M A) :
  emits_only P body -> (forall e, emits_only P (handler e)) ->
  emits_only P (try_except body handler).
Proof.
  intros Hb Hh env st.
  destruct (emits_only_try_then body handler ret Hb Hh
              (fun a => emits_only_ret a) env st) as (evs & H).
  exists evs. exact H.
Qed.

Lemma emits_only_with {A} (enter exit_ : M unit) (body : M A) :
  emits_only P enter -> emits_only P exit_ -> emits_only P body ->
  emits_only P (with_ enter exit_ body).
Proof.
  intros He Hx Hb env st. unfold with_.
  destruct (He env st) as (evs1 & Htr1 & Hall1).
  destruct (enter env st) as [[[] | e] s1]; cbn [snd] in *.
  2: { exists evs1. split; assumption. }
  destruct (Hb env s1) as (evs2 & Htr2 & Hall2).
  destruct (Hx env (snd (body env s1))) as (evs3 & Htr3 & Hall3).
  exists (evs1 ++ evs2 ++ evs3).
  rewrite !forallb_app, Hall1, Hall2, Hall3.
  split; [| reflexivity].
  destruct (body env s1) as [[a | e] s2]; cbn [snd] in *;
    destruct (exit_ env s2) as [[[] | e'] s3]; cbn [snd] in *;
    rewrite Htr3, Htr2, Htr1, <- !app_assoc; reflexivity.
Qed.

Lemma emits_only_call (c : Dep) :
  P (Called c) = true -> emits_only P (call c).
Proof.
  intros Hc env st. exists [Called c]. unfold call.
  destruct (fails env c); cbn; rewrite Hc; split; reflexivity.
Qed.

Lemma emits_only_call_val {A} (c : Dep) (v : Env -> A) :
  P (Called c) = true -> emits_only P (call_val c v).
Proof.
  intros Hc env st. exists [Called c]. unfold call_val.
  destruct (fails env c); cbn; rewrite Hc; split; reflexivity.
Qed.

Lemma emits_only_time_time : P TimeRead = true -> emits_only P time_time.
Proof.
  intros H env st. exists [TimeRead]. cbn. rewrite H. split; reflexivity.
Qed.

Lemma emits_only_datetime_now :
  P NowRead = true -> emits_only P datetime_now.
Proof.
  intros H env st. exists [NowRead]. cbn. rewrite H. split; reflexivity.
Qed.

Lemma emits_only_logger_info (msg : string) :
  P (Logged "info" msg) = true -> emits_only P (logger_info msg).
Proof.
  intros H env st. exists [Logged "info" msg]. cbn. rewrite H.
  split; reflexivity.
Qed.

Lemma emits_only_logger_warning (msg : string) :
  P (Logged "warning" msg) = true -> emits_only P (logger_warning msg).
Proof.
  intros H env st. exists [Logged "warning" msg]. cbn. rewrite H.
  split; reflexivity.
Qed.

Lemma emits_only_ask {A} (f : Env -> A) : emits_only P (ask f).
Proof. intros env st. exists []. rewrite app_nil_r. split; reflexivity. Qed.

Lemma emits_only_get_health_status : emits_only P get_health_status.
Proof. intros env st. exists []. rewrite app_nil_r. split; reflexivity. Qed.

Lemma emits_only_get_start_time : emits_only P get_start_time.
Proof. intros env st. exists []. rewrite app_nil_r. split; reflexivity. Qed.

Lemma emits_only_set_health_status (d : dict SystemHealth) :
  emits_only P (set_health_status d).
Proof.
  intros env st. exists []. cbn. rewrite app_nil_r. split; reflexivity.
Qed.

Lemma emits_only_set_metrics (m : dict pyval) :
  emits_only P (set_metrics m).
Proof.
  intros env st. exists []. cbn. rewrite app_nil_r. split; reflexivity.
Qed.

Lemma emits_only_for_each {A} (l : list A) (f : A -> M unit) :
  (forall a, emits_only P (f a)) -> emits_only P (for_each l f).
Proof.
  intros Hf. induction l as [| x rest IH]; cbn [for_each].
  - apply emits_only_ret.
  - apply emits_only_bind; [apply Hf | intros _; exact IH].
Qed.
End EmitsOnly.

Lemma emits_only_weaken (P Q : Event -> bool) {A} (m : M A) :
  (forall ev, P ev = true -> Q ev = true) ->
  emits_only P m -> emits_only Q m.
Proof.
  intros HPQ Hm env st.
  destruct (Hm env st) as (evs & Htr & Hall).
  exists evs. split; [exact Htr |].
  rewrite forallb_forall in *. auto.
Qed.

(** One step of a proof that a computation emits only [P]: the shape of
    the computation decides the lemma. *)
Ltac emits_step :=
  lazymatch goal with
  | |- emits_only _ (bind _ _) => apply emits_only_bind; [| intro]
  | |- emits_only _ (try_except _ _) =>
      apply emits_only_try_except; [| intro]
  | |- emits_only _ (try_then _ _ _) =>
      apply emits_only_try_then; [| intro | intro]
  | |- emits_only _ (try_except_ImportError _ _ _) =>
      unfold try_except_ImportError
  | |- emits_only _ (with_ _ _ _) => apply emits_only_with
  | |- emits_only _ (call _) => apply emits_only_call; reflexivity
  | |- emits_only _ (call_val _ _) => apply emits_only_call_val; reflexivity
  | |- emits_only _ time_time => apply emits_only_time_time; reflexivity
  | |- emits_only _ datetime_now =>
      apply emits_only_datetime_now; reflexivity
  | |- emits_only _ (logger_info _) =>
      apply emits_only_logger_info; reflexivity
  | |- emits_only _ (logger_warning _) =>
      apply emits_only_logger_warning; reflexivity
  | |- emits_only _ (ret _) => apply emits_only_ret
  | |- emits_only _ (raise _) => apply emits_only_raise
  | |- emits_only _ (ask _) => apply emits_only_ask
  | |- emits_only _ get_health_status => apply emits_only_get_health_status
  | |- emits_only _ get_start_time => apply emits_only_get_start_time
  | |- emits_only _ (set_health_status _) =>
      apply emits_only_set_health_status
  | |- emits_only _ (set_metrics _) => apply emits_only_set_metrics
  | |- emits_only _ (for_each _ _) => apply emits_only_for_each; intro
  | |- emits_only _ (if ?b then _ else _) => destruct b
  | |- emits_only _ (match ?x with _ => _ end) => destruct x
  | |- emits_only _ (elapsed_ms _) => unfold elapsed_ms
  | |- emits_only _ (unhealthy_from _ _ _) => unfold unhealthy_from
  | |- emits_only _ (first_column _) => unfold first_column
  | |- emits_only _ (subscript _ _) => unfold subscript
  end.

Lemma probe_run_emits (p : Probe) : emits_only (probe_event p) (probe_run p).
Proof.
  destruct p; cbn [probe_run].
  - unfold check_database_health, check_database_health_try.
    repeat emits_step.
  - unfold check_cache_health, check_cache_health_try.
    repeat emits_step.
  - unfold check_search_health, check_search_health_try.
    repeat emits_step.
  - unfold check_graph_health, check_graph_health_try.
    repeat emits_step.
Qed.

(** X18: a probe reads the clock and the date and calls its own
    dependency, and nothing else: it never calls the dependency of another
    probe, the sampler or the report file, and it neither logs nor sleeps
    nor prints, on whatever path it takes. *)
Theorem probe_run_isolated (p : Probe) (env : Env) (st : State) :
  exists evs,
    trace (snd (probe_run p env st)) = trace st ++ evs
    /\ forallb (probe_event p) evs = true
    /\ (forall c, called c evs = true -> owns p c = true).
Proof.
  destruct (probe_run_emits p env st) as (evs & Htr & Hall).
  exists evs. split; [exact Htr |]. split; [exact Hall |].
  intros c Hc. unfold called in Hc.
  apply existsb_exists in Hc as (ev & Hin & Hev).
  rewrite forallb_forall in Hall. specialize (Hall ev Hin).
  destruct ev; try discriminate. cbn in Hall.
  destruct p, c0, c; cbn in *; congruence.
Qed.

Lemma probe_event_report_event (p : Probe) (ev : Event) :
  probe_event p ev = true -> report_event ev = true.
Proof.
  destruct ev; cbn; try congruence.
  destruct p, c; cbn; congruence.
Qed.

Lemma generate_system_report_emits :
  emits_only report_event generate_system_report.
Proof.
  unfold generate_system_report, generate_system_report_on,
    run_health_checks_on, collect_system_metrics.
  cbn [PaperlySystemPOC self_check_database_health self_check_cache_health
       self_check_search_health self_check_graph_health].
  repeat first
    [ apply (emits_only_weaken _ _ _ (probe_event_report_event Database)
               (probe_run_emits Database))
    | apply (emits_only_weaken _ _ _ (probe_event_report_event Cache)
               (probe_run_emits Cache))
    | apply (emits_only_weaken _ _ _ (probe_event_report_event Search)
               (probe_run_emits Search))
    | apply (emits_only_weaken _ _ _ (probe_event_report_event Graph)
               (probe_run_emits Graph))
    | emits_step ].
Qed.

(** X19: building the system report reads the clock, calls the four
    dependencies and the sampler and logs; on no path does it sleep, print
    or open, write or close the report file. *)
Theorem generate_system_report_leaves_file (env : Env) (st : State) :
  exists evs,
    trace (snd (generate_system_report env st)) = trace st ++ evs
    /\ forallb report_event evs = true
    /\ called open_report evs = false
    /\ called json_dump evs = false
    /\ called file_exit evs = false.
Proof.
  destruct (generate_system_report_emits env st) as (evs & Htr & Hall).
  exists evs. split; [exact Htr |]. split; [exact Hall |].
  assert (Hno : forall c, report_event (Called c) = false ->
                          called c evs = false).
  { intros c Hc. unfold called.
    destruct (existsb _ evs) eqn:Hex; [| reflexivity].
    apply existsb_exists in Hex as (ev & Hin & Hev).
    rewrite forallb_forall in Hall. specialize (Hall ev Hin).
    destruct ev; try discriminate.
    destruct c0, c; cbn in *; congruence. }
  repeat split; apply Hno; reflexivity.
Qed.

(** X20: an error of the sampler ends the comprehensive demo before
    either demo has run and before the report file is opened: the demo
    raises that error, and all it has done is what building the system
    report does, so there was no sleep and no call on the report file. *)
Theorem run_comprehensive_demo_aborted (env : Env) (st : State)
    (e : PyException) :
  sampler_raises env e ->
  exists st' evs,
    run_comprehensive_demo env st = (Raised e, st')
    /\ trace st' = trace st ++ evs
    /\ forallb report_event evs = true
    /\ called open_report evs = false.
Proof.
  intros He.
  destruct st as [hs ms t0 n k tr].
  unfold run_comprehensive_demo, run_comprehensive_demo_on, bind.
  cbn [logger_info datetime_now emit fst snd self_health_status self_metrics
       self_start_time time_reads now_reads trace].
  fold generate_system_report.
  match goal with
  | |- context [generate_system_report env ?s] =>
      destruct (generate_sampler_error env s e He) as (s' & Hgen & _);
      destruct (generate_system_report_emits env s) as (evs & Htr & Hall);
      rewrite Hgen in Htr |- *
  end.
  cbn [snd trace] in Htr |- *.
  exists s', ([Logged "info"
                 "Starting Paperly.utec POC comprehensive demonstration";
               NowRead] ++ evs).
  split; [reflexivity |].
  split; [rewrite Htr, <- !app_assoc; reflexivity |].
  split; [cbn; exact Hall |].
  unfold called. cbn.
  destruct (existsb _ evs) eqn:Hex; [| reflexivity].
  apply existsb_exists in Hex as (ev & Hin & Hev).
  rewrite forallb_forall in Hall. specialize (Hall ev Hin).
  destruct ev; try discriminate.
  destruct c; cbn in *; congruence.
Qed.

Lemma run_comprehensive_demo_aborted_witness :
  sampler_raises broken_gauge (mkExc OSError "cannot read /proc/stat")
  /\ exists st',
       run_comprehensive_demo broken_gauge boot
       = (Raised (mkExc OSError "cannot read /proc/stat"), st').
Proof.
  assert (H : sampler_raises broken_gauge
                (mkExc OSError "cannot read /proc/stat")).
  { right. left. split; reflexivity. }
  split; [exact H |].
  destruct (run_comprehensive_demo_aborted broken_gauge boot _ H)
    as (st' & evs & Hrun & _).
  exists st'. exact Hrun.
Defined.

(** * The test script *)

Ltac unfold_tester :=
  cbv [connection_test
       Tester.test_database_connection Tester.test_redis_connection
       Tester.test_elasticsearch_connection Tester.test_neo4j_connection
       Tester.test_pipeline_components
       Tester.first_column Tester.message_of Tester.log_result
       Tester.try_except Tester.try_then Tester.any_Exception
       Tester.bind Tester.ret Tester.raise Tester.with_
       Tester.call Tester.call_val Tester.ask
       Tester.time_time Tester.datetime_now Tester.logger_info
       Tester.append_result Tester.emit
       Tester.py_True Tester.py_False
       Tester.results Tester.time_reads Tester.now_reads Tester.trace].

Ltac tester_split :=
  match goal with
  | |- context [match Tester.fails ?env ?c with _ => _ end] =>
      destruct (Tester.fails env c) eqn:?
  | |- context [match Tester.fetchone_row ?env with _ => _ end] =>
      destruct (Tester.fetchone_row env) as [[|? ?]|] eqn:?
  | |- context [if Tester.ping_result ?env then _ else _] =>
      destruct (Tester.ping_result env) eqn:?
  | |- context [match Tester.single_record ?env with _ => _ end] =>
      destruct (Tester.single_record env) eqn:?
  | |- context [match dict_get ?d "message" with _ => _ end] =>
      destruct (dict_get d "message") eqn:?
  | |- context [if Tester.is_scientific ?env then _ else _] =>
      destruct (Tester.is_scientific env) eqn:?
  end.

(** X21: each of the four connection checks of the test script never
    raises and records exactly one result, under its own component: it
    returns [True] with the status SUCCESS exactly when every call
    answers (for the search cluster: the ping is true; for the database
    and the graph: the row and the message are there), and [False] with
    the status FAILED in every other case. *)
Theorem connection_test_outcome (t : ConnectionTest) (env : Tester.Env)
    (st : Tester.State) :
  exists v st' r,
    connection_test t env st = (Returned v, st')
    /\ Tester.results st' = Tester.results st ++ [r]
    /\ Tester.component r = connection_component t
    /\ (v = PBool true <-> connection_ok t env)
    /\ (v = PBool true \/ v = PBool false)
    /\ (Tester.status r = "SUCCESS" <-> v = PBool true)
    /\ (Tester.status r = "SUCCESS" \/ Tester.status r = "FAILED").
Proof.
  destruct st as [rs n k tr].
  destruct t; unfold connection_ok; unfold_tester;
    repeat tester_split; cbn.
  all: do 3 eexists; split; [reflexivity |]; cbn.
  all: split; [reflexivity |]; cbn.
  all: split; [reflexivity |].
  all: split;
    [ split; intros; break_hyps; try discriminate; try congruence;
      repeat split; eauto | ].
  all: split; [auto |].
  all: split; [split; intros; try discriminate; reflexivity | auto].
Qed.

Ltac unfold_log_result :=
  cbv [Tester.log_result Tester.bind Tester.datetime_now Tester.ask
       Tester.append_result Tester.logger_info Tester.emit
       Tester.results Tester.time_reads Tester.now_reads Tester.trace].

(** ** The endpoint check *)

Lemma probe_endpoint_step (env : Tester.Env) (st : Tester.State)
    (endpoint : string) :
  match endpoint_outcome env endpoint with
  | Some outcome =>
      exists st' r,
        Tester.probe_endpoint endpoint env st = (Returned tt, st')
        /\ Tester.results st' = Tester.results st ++ [r]
        /\ summary_of r = outcome
  | None =>
      exists e st',
        Tester.probe_endpoint endpoint env st = (Raised e, st')
        /\ Tester.fails env (Tester.requests_get endpoint) = Some e
        /\ Tester.is_RequestException env e = false
  end.
Proof.
  destruct st as [rs n k tr].
  unfold endpoint_outcome, Tester.probe_endpoint, Tester.try_then,
    Tester.call_val, Tester.RequestException.
  destruct (Tester.fails env (Tester.requests_get endpoint)) as [e |].
  - destruct (Tester.is_RequestException env e) eqn:He.
    + unfold_log_result.
      do 2 eexists. split; [reflexivity |]. split; reflexivity.
    + do 2 eexists. split; [reflexivity |]. split; [reflexivity | exact He].
  - cbv zeta.
    destruct ((Tester.status_code env endpoint =? 200)%Z
              || (Tester.status_code env endpoint =? 404)%Z).
    + unfold_log_result.
      do 2 eexists. split; [reflexivity |]. split; reflexivity.
    + unfold_log_result.
      do 2 eexists. split; [reflexivity |]. split; reflexivity.
Qed.

Lemma probe_endpoints_run (endpoints : list string) (env : Tester.Env) :
  forall st : Tester.State,
    (exists st',
       Tester.probe_endpoints endpoints env st = (Returned tt, st')
       /\ map summary_of (Tester.results st')
          = map summary_of (Tester.results st)
            ++ endpoint_outcomes env endpoints
       /\ forall endpoint, In endpoint endpoints ->
                           endpoint_outcome env endpoint <> None)
    \/ (exists e st' endpoint,
          Tester.probe_endpoints endpoints env st = (Raised e, st')
          /\ In endpoint endpoints
          /\ Tester.fails env (Tester.requests_get endpoint) = Some e
          /\ Tester.is_RequestException env e = false).
Proof.
  induction endpoints as [| endpoint rest IH]; intros st.
  - left. exists st. cbn. rewrite app_nil_r.
    repeat split. intros ? [].
  - cbn [Tester.probe_endpoints]. unfold Tester.bind.
    pose proof (probe_endpoint_step env st endpoint) as Hstep.
    destruct (endpoint_outcome env endpoint) as [outcome |] eqn:Hout.
    + destruct Hstep as (s1 & r & Hrun & Hres & Hsum). rewrite Hrun.
      destruct (IH s1) as [(st' & Hrest & Hmap & Hall)
                          | (e & st' & ep & Hrest & Hin & Hf & He)].
      * left. exists st'. split; [exact Hrest |]. split.
        -- rewrite Hmap, Hres, map_app. cbn [map].
           unfold endpoint_outcomes. cbn [flat_map].
           fold (endpoint_outcomes env rest).
           rewrite Hout, Hsum, <- app_assoc. reflexivity.
        -- intros ep [<- | Hin]; [congruence | auto].
      * right. exists e, st', ep. repeat split; auto using in_cons.
    + destruct Hstep as (e & s1 & Hrun & Hf & He). rewrite Hrun.
      right. exists e, s1, endpoint. repeat split; auto using in_eq.
Qed.

(** X22: the endpoint check has no [return], so it answers [None] on
    every path on which it returns; it records one result per endpoint, in
    order: SUCCESS for a 200 or a 404, WARNING for another code, INFO when
    the request raises a [RequestException]; any other exception of a
    request leaves the check. *)
Theorem test_api_endpoints_outcome (env : Tester.Env) (st : Tester.State) :
  (forall v st',
     Tester.test_api_endpoints env st = (Returned v, st') -> v = PNone)
  /\ ((forall endpoint, In endpoint Tester.endpoints ->
                        endpoint_outcome env endpoint <> None) ->
      exists st',
        Tester.test_api_endpoints env st = (Returned PNone, st')
        /\ map summary_of (Tester.results st')
           = map summary_of (Tester.results st)
             ++ endpoint_outcomes env Tester.endpoints)
  /\ (forall e st',
        Tester.test_api_endpoints env st = (Raised e, st') ->
        exists endpoint,
          In endpoint Tester.endpoints
          /\ Tester.fails env (Tester.requests_get endpoint) = Some e
          /\ Tester.is_RequestException env e = false).
Proof.
  unfold Tester.test_api_endpoints, Tester.bind, Tester.ret.
  destruct (probe_endpoints_run Tester.endpoints env st)
    as [(s1 & Hrun & Hmap & Hall) | (e & s1 & ep & Hrun & Hin & Hf & He)];
    rewrite Hrun.
  - split; [intros v st' H; inversion H; reflexivity |].
    split; [intros _; exists s1; split; [reflexivity | exact Hmap] |].
    intros e st' H. discriminate.
  - split; [intros v st' H; discriminate |].
    split.
    + intros Hall. exfalso. apply (Hall ep Hin).
      unfold endpoint_outcome. rewrite Hf, He. reflexivity.
    + intros e' st' H. inversion H; subst. exists ep. auto.
Qed.

(** ** The runner *)

Lemma log_result_returns (component status message : string)
    (env : Tester.Env) (st : Tester.State) :
  exists st',
    Tester.log_result component status message env st = (Returned tt, st').
Proof. unfold_log_result. eexists. reflexivity. Qed.

Lemma run_tests_bounds (tests : list (string * Tester.T pyval))
    (env : Tester.Env) :
  forall (passed : nat) (st : Tester.State),
  exists k st',
    Tester.run_tests tests passed env st = (Returned k, st')
    /\ (passed <= k <= passed + length tests)%nat.
Proof.
  induction tests as [| [name t] rest IH]; intros passed st.
  - exists passed, st. cbn. split; [reflexivity | lia].
  - cbn [Tester.run_tests length].
    unfold Tester.bind at 1. unfold Tester.print at 1.
    unfold Tester.bind at 1. unfold Tester.try_then, Tester.any_Exception.
    destruct (t env _) as [[v | e] s1].
    + cbn [Tester.ret].
      destruct (IH (if Tester.truthy v then (passed + 1)%nat else passed) s1)
        as (k & st' & Hrun & Hk).
      exists k, st'. split; [exact Hrun |].
      destruct (Tester.truthy v); lia.
    + unfold Tester.bind at 1.
      destruct (log_result_returns "TEST_RUNNER" "FAILED"
                  (name ++ " crashed: " ++ exc_str e) env s1)
        as (s2 & Hlog).
      rewrite Hlog. cbn [Tester.ret].
      destruct (IH passed s2) as (k & st' & Hrun & Hk).
      exists k, st'. split; [exact Hrun | lia].
Qed.

Lemma run_tests_app (l1 l2 : list (string * Tester.T pyval))
    (env : Tester.Env) :
  forall (passed : nat) (st : Tester.State),
    Tester.run_tests (l1 ++ l2) passed env st
    = Tester.bind (Tester.run_tests l1 passed)
        (fun k => Tester.run_tests l2 k) env st.
Proof.
  induction l1 as [| [name t] rest IH]; intros passed st.
  - reflexivity.
  - cbn [app Tester.run_tests].
    unfold Tester.bind, Tester.print. cbv beta iota.
    match goal with
    | |- context [Tester.try_then ?c ?b ?h ?r ?e ?s] =>
        destruct (Tester.try_then c b h r e s) as [[k | e'] s1]
    end.
    + rewrite IH. reflexivity.
    + reflexivity.
Qed.

Lemma run_tests_not_counted (name : string) (t : Tester.T pyval)
    (env : Tester.Env) (passed : nat) (st : Tester.State) :
  never_counts t ->
  exists st',
    Tester.run_tests [(name, t)] passed env st = (Returned passed, st').
Proof.
  intros Hnever. cbn [Tester.run_tests].
  unfold Tester.bind at 1. unfold Tester.print at 1.
  unfold Tester.bind at 1. unfold Tester.try_then, Tester.any_Exception.
  destruct (t env _) as [[v | e] s1] eqn:Ht.
  - rewrite (Hnever _ _ _ _ Ht). eexists. reflexivity.
  - unfold Tester.bind at 1.
    destruct (log_result_returns "TEST_RUNNER" "FAILED"
                (name ++ " crashed: " ++ exc_str e) env s1) as (s2 & Hlog).
    rewrite Hlog. eexists. reflexivity.
Qed.

Lemma run_tests_skips_one (l1 l2 : list (string * Tester.T pyval))
    (name : string) (t : Tester.T pyval) (env : Tester.Env)
    (passed : nat) (st : Tester.State) :
  never_counts t ->
  exists k st',
    Tester.run_tests (l1 ++ (name, t) :: l2) passed env st
    = (Returned k, st')
    /\ (passed <= k <= passed + length l1 + length l2)%nat.
Proof.
  intros Hnever.
  rewrite run_tests_app. unfold Tester.bind.
  destruct (run_tests_bounds l1 env passed st) as (k1 & s1 & H1 & Hk1).
  rewrite H1.
  change ((name, t) :: l2) with ([(name, t)] ++ l2).
  rewrite run_tests_app. unfold Tester.bind.
  destruct (run_tests_not_counted name t env k1 s1 Hnever) as (s2 & H2).
  rewrite H2.
  destruct (run_tests_bounds l2 env k1 s2) as (k & st' & H3 & Hk).
  exists k, st'. split; [exact H3 | lia].
Qed.

Lemma test_api_endpoints_never_counts :
  never_counts Tester.test_api_endpoints.
Proof.
  intros env st v st' H.
  unfold Tester.test_api_endpoints, Tester.bind, Tester.ret in H.
  destruct (Tester.probe_endpoints Tester.endpoints env st) as [[[] | e] s1];
    inversion H. reflexivity.
Qed.



(** X24: the suite has seven checks and never reports seven passed: the
    endpoint check answers [None], so the line that the runner prints is
    "Tests Passed: k/7" with k at most 6, also when every dependency is
    up. *)
Theorem run_all_tests_never_all_passed (env : Tester.Env)
    (st : Tester.State) :
  exists k,
    (k <= 6)%nat
    /\ In (Tester.Printed ("Tests Passed: " ++ str_of_nat k ++ "/7"))
          (Tester.trace (snd (Tester.run_all_tests env st))).
Proof.
  unfold Tester.run_all_tests, Tester.run_all_tests_on.
  unfold Tester.bind at 1. unfold Tester.print at 1.
  unfold Tester.bind at 1. unfold Tester.print at 1.
  cbv zeta. unfold Tester.bind at 1.
  match goal with
  | |- context [Tester.run_tests Tester.tests 0 env ?s] =>
      destruct (run_tests_skips_one
                  [("Database Connection", Tester.test_database_connection);
                   ("Redis Cache", Tester.test_redis_connection);
                   ("Elasticsearch", Tester.test_elasticsearch_connection);
                   ("Neo4j Graph DB", Tester.test_neo4j_connection)]
                  [("Pipeline Components", Tester.test_pipeline_components);
                   ("Performance Benchmarks",
                    Tester.test_performance_benchmarks)]
                  "API Endpoints" Tester.test_api_endpoints env 0 s
                  test_api_endpoints_never_counts)
        as (k & s1 & Hrun & Hk)
  end.
  cbn [app] in Hrun. fold Tester.tests in Hrun. rewrite Hrun.
  exists k. split; [cbn in Hk; lia |].
  destruct s1 as [rs n m tr].
  cbv [Tester.bind Tester.print Tester.emit Tester.success_rate Tester.ret
       Tester.ask Tester.with_ Tester.call Tester.datetime_now
       Tester.results Tester.time_reads Tester.now_reads Tester.trace
       length Tester.tests].
  destruct (Tester.fails env Tester.open_results);
    [| destruct (Tester.fails env Tester.json_dump);
       destruct (Tester.fails env Tester.file_exit) ];
    cbn [snd Tester.trace]; rewrite <- !app_assoc;
    apply in_or_app; right; cbn [app In];
    do 3 right; left; reflexivity.
Qed.

(** ** The pipeline check *)

(** X25: the pipeline check never raises and returns [True] exactly when
    the import, the construction and the classifier call all answer; the
    answer of the classifier only picks the status of the second result,
    SUCCESS or WARNING.  When the classifier call raises after the
    pipeline was loaded, the check returns [False] and has recorded both
    a SUCCESS and a FAILED under PIPELINE. *)
Theorem test_pipeline_components_outcome (env : Tester.Env)
    (st : Tester.State) :
  exists v st' new,
    Tester.test_pipeline_components env st = (Returned v, st')
    /\ Tester.results st' = Tester.results st ++ new
    /\ (v = PBool true
        <-> pipeline_loaded env
            /\ Tester.fails env Tester.is_scientific_paper = None)
    /\ (v = PBool true \/ v = PBool false)
    /\ (v = PBool true ->
        map summary_of new
        = [("PIPELINE", "SUCCESS", "Pipeline components loaded successfully");
           ("CLASSIFIER",
            if Tester.is_scientific env then "SUCCESS" else "WARNING",
            ("Classification result: "
             ++ Tester.str_of_bool (Tester.is_scientific env))%string)])
    /\ (forall e,
          pipeline_loaded env ->
          Tester.fails env Tester.is_scientific_paper = Some e ->
          v = PBool false
          /\ map summary_of new
             = [("PIPELINE", "SUCCESS",
                 "Pipeline components loaded successfully");
                ("PIPELINE", "FAILED", exc_str e)]).
Proof.
  destruct st as [rs n k tr].
  unfold pipeline_loaded. unfold_tester.
  repeat tester_split; cbn.
  all: do 3 eexists; split; [reflexivity |]; cbn.
  all: split; [rewrite <- ?app_assoc; cbn; reflexivity |].
  all: split;
    [ split; intros; break_hyps; try discriminate; try congruence;
      repeat split; eauto | ].
  all: split; [auto |].
  all: split; intros; break_hyps; try discriminate; try congruence.
  all: try reflexivity.
  all: split; [reflexivity |];
    match goal with H : Some _ = Some _ |- _ => inversion H; subst end;
    reflexivity.
Qed.

(** ** The benchmark *)





(** ** The end of the suite *)

